(** * mlrun/db/httpdb.py: the HTTP run-database client

    A shallow embedding of [HTTPRunDB]: the request dispatcher [api_call],
    the path builder [_path_of], the resource operations and the log
    watcher [watch_log], with the statements of the specification proved
    or refuted against it. *)

From stdpp Require Import gmap strings list fin_maps pretty.
From Stdlib Require Import ZArith Lia Ascii String.

Open Scope string_scope.
Open Scope Z_scope.
Open Scope list_scope.

(** ** Python values the client manipulates *)

Module Py.

(** Truthiness of a [str] or [bytes] object: everything but the empty one. *)
Definition truthy (s : string) : bool :=
  match s with
  | EmptyString => false
  | String _ _ => true
  end.

(** [a or b] on strings. *)
Definition or_else (a b : string) : string :=
  if truthy a then a else b.

(** How an f-string formats a string or [None]. *)
Definition format (v : option string) : string :=
  match v with
  | Some s => s
  | None => "None"
  end.

(** [len] of a [bytes] object, as a Python integer. *)
Definition len (s : string) : Z := Z.of_nat (String.length s).

(** [str(n)] on an integer. *)
Definition str_of_int (n : Z) : string := pretty n.

(** Lower-casing of an ASCII letter; the other characters are unchanged. *)
Definition lower_ascii (a : ascii) : ascii :=
  let n := nat_of_ascii a in
  if (Nat.leb 65 n && Nat.leb n 90)%bool then ascii_of_nat (n + 32) else a.

Fixpoint lower (s : string) : string :=
  match s with
  | EmptyString => EmptyString
  | String a r => String (lower_ascii a) (lower r)
  end.

(** [s.split(sep)] for a one-character separator: the pieces between the
    occurrences of [sep], an empty string giving one empty piece. *)
Fixpoint split (sep : ascii) (s : string) : list string :=
  match s with
  | EmptyString => [EmptyString]
  | String a r =>
      if Ascii.eqb a sep then EmptyString :: split sep r
      else match split sep r with
           | [] => [String a EmptyString]
           | p :: ps => String a p :: ps
           end
  end.

End Py.

(** ** Module constants *)

Definition default_project : string := "default".

Definition bool2str (val : bool) : string :=
  if val then "yes" else "no".

(** ** The path builder *)

(** [HTTPRunDB._path_of]: [project or default_project], then the f-string
    [prefix/project/uid]. *)
Definition _path_of (prefix project uid : string) : string :=
  let project := Py.or_else project default_project in
  prefix +:+ "/" +:+ project +:+ "/" +:+ uid.

(** The segments of a path: what lies between its slashes. *)
Definition segments (path : string) : list string := Py.split "/" path.

Definition has_empty_segment (path : string) : bool :=
  existsb (fun p => negb (Py.truthy p)) (segments path).

(** ** Decoding of log bytes

    [bytes.decode()] is strict UTF-8: the result is the list of code
    points, or nothing where Python raises [UnicodeDecodeError]
    (truncated or overlong sequences, surrogates, values above U+10FFFF). *)

Module Utf8.

Definition between (lo hi b : N) : bool := ((lo <=? b) && (b <=? hi))%N.

Definition cont (b : N) : N := (b - 128)%N.

Fixpoint decode_bytes (bs : list N) : option (list N) :=
  match bs with
  | [] => Some []
  | b0 :: r0 =>
      if (b0 <? 128)%N then cons b0 <$> decode_bytes r0
      else if between 194 223 b0 then
        match r0 with
        | b1 :: r1 =>
            if between 128 191 b1
            then cons ((b0 - 192) * 64 + cont b1)%N <$> decode_bytes r1
            else None
        | _ => None
        end
      else if between 224 239 b0 then
        match r0 with
        | b1 :: b2 :: r2 =>
            let lo := if (b0 =? 224)%N then 160%N else 128%N in
            let hi := if (b0 =? 237)%N then 159%N else 191%N in
            if between lo hi b1 && between 128 191 b2
            then cons ((b0 - 224) * 4096 + cont b1 * 64 + cont b2)%N
                   <$> decode_bytes r2
            else None
        | _ => None
        end
      else if between 240 244 b0 then
        match r0 with
        | b1 :: b2 :: b3 :: r3 =>
            let lo := if (b0 =? 240)%N then 144%N else 128%N in
            let hi := if (b0 =? 244)%N then 143%N else 191%N in
            if between lo hi b1 && between 128 191 b2 && between 128 191 b3
            then cons ((b0 - 240) * 262144 + cont b1 * 4096
                       + cont b2 * 64 + cont b3)%N
                   <$> decode_bytes r3
            else None
        | _ => None
        end
      else None
  end.

Definition bytes_of (s : string) : list N :=
  N_of_ascii <$> list_ascii_of_string s.

Definition decode (s : string) : option (list N) := decode_bytes (bytes_of s).

End Utf8.

(** ** Requests, responses and exceptions *)

(** A value of the [params] dict. *)
Inductive ParamVal :=
| PNone
| PStr (s : string)
| PInt (n : Z)
| PList (l : list string).

(** An argument that is a string or [None], as a value of [params]. *)
Definition opt_param (v : option string) : ParamVal :=
  match v with
  | Some s => PStr s
  | None => PNone
  end.

(** A string or an integer where a value of a [params] dict is expected. *)
Coercion PStr : string >-> ParamVal.
Coercion PInt : Z >-> ParamVal.

(** A JSON document, as [json.loads] and [resp.json()] give it. *)
#[local] Unset Elimination Schemes.
Inductive JsonVal :=
| JNull
| JBool (b : bool)
| JNum (n : Z)
| JStr (s : string)
| JArr (items : list JsonVal)
| JObj (fields : list (string * JsonVal)).
#[local] Set Elimination Schemes.

(** The call [requests.request(method, url, timeout=timeout, **kw)]: a
    key that [kw] does not hold is [None] here. *)
Record Request := {
  req_method : string;
  req_url : string;
  req_timeout : Z;
  req_params : option (gmap string ParamVal);
  req_data : option string;
  req_json : option JsonVal;
  req_auth : option (string * string);
  req_headers : option (gmap string string);
}.

(** [requests.Response]. [headers] is the store of the case-insensitive
    dict, keyed by the lower-cased header name. *)
Record Response := {
  status_code : Z;
  reason : string;
  url : string;
  headers : gmap string string;
  content : string;
}.

(** The subclasses of [requests.RequestException]. *)
Inductive RequestExceptionKind :=
| ConnectionError
| Timeout
| TooManyRedirects
| HTTPError
| OtherRequestException.

(** What [requests.request] does with a request: it returns a response or
    raises a [RequestException] whose [str] is [cause]. *)
Inductive Outcome :=
| Responds (r : Response)
| Fails (kind : RequestExceptionKind) (cause : string).

Inductive Exn :=
| RunDBError (msg : string)
| OSError (msg : string)
| ValueError (msg : string)
| UnboundLocalError (name : string)
| UnicodeDecodeError
| JSONDecodeError
| KeyError (key : string)
| TypeError.

(** [Response.raise_for_status] of the requests library: an [HTTPError]
    for the status codes 400 to 599, nothing for the others. *)
Definition raise_for_status (r : Response) : option (RequestExceptionKind * string) :=
  if ((400 <=? status_code r) && (status_code r <? 500))%Z then
    Some (HTTPError, Py.str_of_int (status_code r) +:+ " Client Error: "
                       +:+ reason r +:+ " for url: " +:+ url r)
  else if ((500 <=? status_code r) && (status_code r <? 600))%Z then
    Some (HTTPError, Py.str_of_int (status_code r) +:+ " Server Error: "
                       +:+ reason r +:+ " for url: " +:+ url r)
  else None.

(** [Response.ok] of the requests library: [raise_for_status] does not
    raise. *)
Definition ok (r : Response) : bool :=
  match raise_for_status r with
  | Some _ => false
  | None => true
  end.

(** [bool(resp.headers)] and [resp.headers.get(name, default)]. *)
Definition headers_truthy (r : Response) : bool :=
  bool_decide (headers r ≠ ∅).

Definition headers_get (r : Response) (name dflt : string) : string :=
  match headers r !! Py.lower name with
  | Some v => v
  | None => dflt
  end.

(** ** Effects

    What a call does besides returning: requests sent, sleeps, printed
    text and error-log lines, in order. *)
Inductive Event :=
| EvRequest (r : Request)
| EvSleep (seconds : Z)
| EvPrint (text : list N) (end_ : string)
| EvLogError (msg : string).

(** The environment of the client: the remote service (its answer to a
    request may depend on everything that happened before), [json.loads],
    and whether [RunDBError], declared in [mlrun/db/base.py], derives from
    [OSError]. *)
Record Env := {
  server : list Event → Request → Outcome;
  json_loads : string → option JsonVal;
  rundb_error_is_oserror : bool;
}.

(** The outcome of a call: a value, an exception, or a loop that is still
    running when the fuel is spent. *)
Inductive Res (A : Type) :=
| Ok (a : A)
| Raise (e : Exn)
| Diverge.
Arguments Ok {A} a.
Arguments Raise {A} e.
Arguments Diverge {A}.

Definition M (A : Type) : Type := list Event → Res A * list Event.

Definition ret {A} (a : A) : M A := λ tr, (Ok a, tr).

Definition bind {A B} (m : M A) (k : A → M B) : M B :=
  λ tr, match m tr with
        | (Ok a, tr') => k a tr'
        | (Raise e, tr') => (Raise e, tr')
        | (Diverge, tr') => (Diverge, tr')
        end.

Definition raise {A} (e : Exn) : M A := λ tr, (Raise e, tr).

Definition diverge {A} : M A := λ tr, (Diverge, tr).

Definition emit (ev : Event) : M unit := λ tr, (Ok tt, tr ++ [ev]).

(** [try: m except E as err: handler], [catches] choosing the exceptions
    that are instances of [E]. *)
Definition try_except {A} (m : M A) (catches : Exn → bool)
    (handler : Exn → M A) : M A :=
  λ tr, match m tr with
        | (Raise e, tr') => if catches e then handler e tr' else (Raise e, tr')
        | r => r
        end.

Notation "x <- m ;; k" := (bind m (λ x, k))
  (at level 100, m at next level, right associativity).
Notation "m ;;; k" := (bind m (λ _, k))
  (at level 100, right associativity).

(** The requests sent in a trace, in order. *)
Definition requests_of (tr : list Event) : list Request :=
  omap (λ ev, match ev with EvRequest r => Some r | _ => None end) tr.

Definition sleeps_of (tr : list Event) : list Z :=
  omap (λ ev, match ev with EvSleep s => Some s | _ => None end) tr.

Definition prints_of (tr : list Event) : list (list N * string) :=
  omap (λ ev, match ev with EvPrint t e => Some (t, e) | _ => None end) tr.

Definition log_errors_of (tr : list Event) : list string :=
  omap (λ ev, match ev with EvLogError m => Some m | _ => None end) tr.

(** [str(err)] of an exception built from one message. *)
Definition exn_str (e : Exn) : string :=
  match e with
  | RunDBError m | OSError m | ValueError m => m
  | UnboundLocalError n => n
  | KeyError k => k
  | UnicodeDecodeError | JSONDecodeError | TypeError => ""
  end.

Definition newline : string := String (ascii_of_nat 10) EmptyString.

(** An object handed to [_as_json]: one with a [to_json] method (and what
    the method returns), or a plain structure. *)
Inductive Struct :=
| WithToJson (out : string)
| Plain (d : JsonVal).

(** What the operations return. *)
Inductive Value :=
| VNone
| VSelf
| VBytes (b : string)
| VLog (state : string) (b : string)
| VJson (j : JsonVal)
| VRunList (runs : JsonVal)
| VArtifactList (artifacts : JsonVal) (tag : ParamVal).

(** ** The client *)

Record HTTPRunDB := {
  base_url : string;
  user : string;
  password : string;
  token : string;
}.

Section Client.

Variable env : Env.
(** [dict_to_json] of [mlrun/utils] and [json.dumps]: serializers, not
    interpreted here. *)
Variable dict_to_json : JsonVal → string.
Variable json_dumps : JsonVal → string.
Variable self : HTTPRunDB.

(** [error or '{} {}, error: {}'.format(method, url, err)] *)
Definition error_message (error : option string) (method url cause : string)
    : string :=
  let auto := method +:+ " " +:+ url +:+ ", error: " +:+ cause in
  match error with
  | Some e => Py.or_else e auto
  | None => auto
  end.

(** The request [api_call] hands to [requests.request]: of [params],
    [data] and [json] only those that are not [None], then basic auth if
    a user is set, else the bearer header if a token is set. *)
Definition build_request (method path : string)
    (params : option (gmap string ParamVal)) (body : option string)
    (json : option JsonVal) (timeout : Z) : Request :=
  {| req_method := method;
     req_url := base_url self +:+ "/api/" +:+ path;
     req_timeout := timeout;
     req_params := params;
     req_data := body;
     req_json := json;
     req_auth :=
       if Py.truthy (user self) then Some (user self, password self)
       else None;
     req_headers :=
       if Py.truthy (user self) then None
       else if Py.truthy (token self)
            then Some {[ "Authorization" := "Bearer " +:+ token self ]}
            else None |}.

(** [requests.request]: the request is sent, the service answers. *)
Definition send (req : Request) : M Outcome :=
  λ tr, (Ok (server env tr req), tr ++ [EvRequest req]).

Definition api_call (method path : string) (error : option string)
    (params : option (gmap string ParamVal)) (body : option string)
    (json : option JsonVal) (timeout : Z) : M Response :=
  let req := build_request method path params body json timeout in
  out <- send req ;;
  match out with
  | Fails _ cause =>
      raise (RunDBError (error_message error method (req_url req) cause))
  | Responds resp =>
      match raise_for_status resp with
      | Some (_, cause) =>
          raise (RunDBError (error_message error method (req_url req) cause))
      | None => ret resp
      end
  end.

Definition connect : M Value :=
  api_call "GET" "healthz" None None None None 3 ;;;
  ret VSelf.

(** [store_log(uid, project='', body=None, append=False)] *)
Definition store_log (uid project : string) (body : option string)
    (append : bool) : M Value :=
  match body with
  | None => ret VNone
  | Some b =>
      if negb (Py.truthy b) then ret VNone
      else
        let path := _path_of "log" project uid in
        let params : gmap string ParamVal :=
          {[ "append" := PStr (bool2str append) ]} in
        let error := "store log " +:+ project +:+ "/" +:+ uid in
        api_call "POST" path (Some error) (Some params) (Some b) None 20 ;;;
        ret VNone
  end.

(** [get_log(uid, project='', offset=0, size=0)], [offset] and [size]
    going into [params] as they are given. [state] is bound only under
    [if resp.headers:]. *)
Definition get_log (uid project : string) (offset size : ParamVal)
    : M (string * string) :=
  let params : gmap string ParamVal :=
    {[ "offset" := offset; "size" := size ]} in
  let path := _path_of "log" project uid in
  let error := "get log " +:+ project +:+ "/" +:+ uid in
  resp <- api_call "GET" path (Some error) (Some params) None None 20 ;;
  let state : option string :=
    if headers_truthy resp
    then Some (headers_get resp "function_status" "")
    else None in
  match state with
  | Some st => ret (st, content resp)
  | None => raise (UnboundLocalError "state")
  end.

(** [if text: print(text.decode(), end=end_)] *)
Definition print_log (text end_ : string) : M unit :=
  if Py.truthy text then
    match Utf8.decode text with
    | Some t => emit (EvPrint t end_)
    | None => raise UnicodeDecodeError
    end
  else ret tt.

Definition non_terminal (state : string) : bool :=
  bool_decide (state ∈ ["pending"; "running"]).

(** The [while] loop of [watch_log]; [fuel] bounds the iterations. *)
Fixpoint watch_loop (fuel : nat) (uid project state text : string)
    (offset : Z) : M string :=
  if non_terminal state then
    match fuel with
    | O => diverge
    | S fuel' =>
        let offset := offset + Py.len text in
        emit (EvSleep 2) ;;;
        st <- get_log uid project offset 0 ;;
        let '(state, text) := st in
        print_log text "" ;;;
        watch_loop fuel' uid project state text offset
    end
  else ret state.

(** [watch_log(uid, project='', watch=True, offset=0)] *)
Definition watch_log (fuel : nat) (uid project : string) (watch : bool)
    (offset : Z) : M string :=
  st <- get_log uid project offset 0 ;;
  let '(state, text) := st in
  print_log text newline ;;;
  if watch then watch_loop fuel uid project state text offset
  else ret state.

(** [_as_json(obj)] *)
Definition _as_json (obj : Struct) : string :=
  match obj with
  | WithToJson out => out
  | Plain d => dict_to_json d
  end.

(** [resp.json()] and [d[key]] on its result. *)
Definition resp_json (resp : Response) : M JsonVal :=
  match json_loads env (content resp) with
  | Some j => ret j
  | None => raise JSONDecodeError
  end.

Definition json_item (j : JsonVal) (key : string) : M JsonVal :=
  match j with
  | JObj fields =>
      match list_find (λ kv, kv.1 = key) fields with
      | Some (_, (_, v)) => ret v
      | None => raise (KeyError key)
      end
  | _ => raise TypeError
  end.

(** [labels or []] *)
Definition labels_or_empty (labels : option (list string)) : list string :=
  match labels with
  | Some l => l
  | None => []
  end.

(** [store_run(struct, uid, project='', iter=0)] *)
Definition store_run (struct : Struct) (uid project : string)
    (iter : ParamVal) : M Value :=
  let path := _path_of "run" project uid in
  let params : gmap string ParamVal := {[ "iter" := iter ]} in
  let error := "store run " +:+ project +:+ "/" +:+ uid in
  let body := _as_json struct in
  api_call "POST" path (Some error) (Some params) (Some body) None 20 ;;;
  ret VNone.

(** [update_run(updates, uid, project='', iter=0)] *)
Definition update_run (updates : Struct) (uid project : string)
    (iter : ParamVal) : M Value :=
  let path := _path_of "run" project uid in
  let params : gmap string ParamVal := {[ "iter" := iter ]} in
  let error := "update run " +:+ project +:+ "/" +:+ uid in
  let body := _as_json updates in
  api_call "PATCH" path (Some error) (Some params) (Some body) None 20 ;;;
  ret VNone.

(** [read_run(uid, project='', iter=0)] *)
Definition read_run (uid project : string) (iter : ParamVal) : M Value :=
  let path := _path_of "run" project uid in
  let params : gmap string ParamVal := {[ "iter" := iter ]} in
  let error := "get run " +:+ project +:+ "/" +:+ uid in
  resp <- api_call "GET" path (Some error) (Some params) None None 20 ;;
  j <- resp_json resp ;;
  d <- json_item j "data" ;;
  ret (VJson d).

(** [del_run(uid, project='', iter=0)] *)
Definition del_run (uid project : string) (iter : ParamVal) : M Value :=
  let path := _path_of "run" project uid in
  let params : gmap string ParamVal := {[ "iter" := iter ]} in
  let error := "del run " +:+ project +:+ "/" +:+ uid in
  api_call "DELETE" path (Some error) (Some params) None None 20 ;;;
  ret VNone.

(** The [uid] entry of the [params] of [list_runs]: the argument as it
    is, [None] included. *)
Definition uid_param (uid : option string) : ParamVal :=
  match uid with
  | Some u => PStr u
  | None => PNone
  end.

(** [list_runs(name='', uid=None, project='', labels=None, state='',
    sort=True, last=0, iter=False)] *)
Definition list_runs_params (name : ParamVal) (uid : option string)
    (project : string) (labels : option (list string)) (state : ParamVal)
    (sort iter : bool) : gmap string ParamVal :=
  let project := Py.or_else project default_project in
  {[ "name" := name;
     "uid" := uid_param uid;
     "project" := PStr project;
     "label" := PList (labels_or_empty labels);
     "state" := state;
     "sort" := PStr (bool2str sort);
     "iter" := PStr (bool2str iter) ]}.

Definition list_runs (name : ParamVal) (uid : option string)
    (project : string) (labels : option (list string)) (state : ParamVal)
    (sort : bool) (last : Z) (iter : bool) : M Value :=
  let params := list_runs_params name uid project labels state sort iter in
  resp <- api_call "GET" "runs" (Some "list runs") (Some params) None None 20 ;;
  j <- resp_json resp ;;
  runs <- json_item j "runs" ;;
  ret (VRunList runs).

(** [del_runs(name='', project='', labels=None, state='', days_ago=0)] *)
Definition del_runs (name : ParamVal) (project : string)
    (labels : option (list string)) (state : ParamVal) (days_ago : Z)
    : M Value :=
  let project := Py.or_else project default_project in
  let params : gmap string ParamVal :=
    {[ "name" := name;
       "project" := PStr project;
       "label" := PList (labels_or_empty labels);
       "state" := state;
       "days_ago" := PStr (Py.str_of_int days_ago) ]} in
  api_call "DELETE" "runs" (Some "del runs") (Some params) None None 20 ;;;
  ret VNone.

(** [store_artifact(key, artifact, uid, tag='', project='')] *)
Definition store_artifact (key : string) (artifact : Struct)
    (uid : string) (tag : ParamVal) (project : string) : M Value :=
  let path := _path_of "artifact" project uid +:+ "/" +:+ key in
  let params : gmap string ParamVal := {[ "tag" := tag ]} in
  let error :=
    "store artifact " +:+ project +:+ "/" +:+ uid +:+ "/" +:+ key in
  let body := _as_json artifact in
  api_call "POST" path (Some error) (Some params) (Some body) None 20 ;;;
  ret VNone.

(** [read_artifact(key, tag='', project='')] *)
Definition read_artifact (key tag project : string) : M Value :=
  let project := Py.or_else project default_project in
  let tag := Py.or_else tag "latest" in
  let path := _path_of "artifact" project tag +:+ "/" +:+ key in
  let error := "read artifact " +:+ project +:+ "/" +:+ key in
  resp <- api_call "GET" path (Some error) None None None 20 ;;
  ret (VBytes (content resp)).

(** [del_artifact(key, tag='', project='')]. [key] goes into the path
    and the error text as the f-strings format it, and into [params] as
    it is given. *)
Definition del_artifact (key : option string) (tag : ParamVal)
    (project : string) : M Value :=
  let path := _path_of "artifact" project (Py.format key) in
  let params : gmap string ParamVal :=
    {[ "key" := opt_param key; "tag" := tag ]} in
  let error := "del artifact " +:+ project +:+ "/" +:+ Py.format key in
  api_call "DELETE" path (Some error) (Some params) None None 20 ;;;
  ret VNone.

(** [list_artifacts(name='', project='', tag='', labels=None)] *)
Definition list_artifacts (name : ParamVal) (project : string)
    (tag : ParamVal) (labels : option (list string)) : M Value :=
  let project := Py.or_else project default_project in
  let params : gmap string ParamVal :=
    {[ "name" := name;
       "project" := PStr project;
       "tag" := tag;
       "label" := PList (labels_or_empty labels) ]} in
  resp <- api_call "GET" "artifacts" (Some "list artifacts") (Some params)
            None None 20 ;;
  j <- resp_json resp ;;
  values <- json_item j "artifacts" ;;
  ret (VArtifactList values tag).

(** [del_artifacts(name='', project='', tag='', labels=None, days_ago=0)] *)
Definition del_artifacts (name : ParamVal) (project : string)
    (tag : ParamVal) (labels : option (list string)) (days_ago : Z)
    : M Value :=
  let project := Py.or_else project default_project in
  let params : gmap string ParamVal :=
    {[ "name" := name;
       "project" := PStr project;
       "tag" := tag;
       "label" := PList (labels_or_empty labels);
       "days_ago" := PStr (Py.str_of_int days_ago) ]} in
  api_call "DELETE" "artifacts" (Some "del artifacts") (Some params)
    None None 20 ;;;
  ret VNone.

(** [store_function(func, name, project='', tag='')] *)
Definition store_function (func : JsonVal) (name project : string)
    (tag : ParamVal) : M Value :=
  let params : gmap string ParamVal := {[ "tag" := tag ]} in
  let project := Py.or_else project default_project in
  let path := _path_of "func" project name in
  let error := "store function " +:+ project +:+ "/" +:+ name in
  api_call "POST" path (Some error) (Some params) (Some (json_dumps func))
    None 20 ;;;
  ret VNone.

(** [get_function(name, project='', tag='')] *)
Definition get_function (name project : string) (tag : ParamVal)
    : M Value :=
  let params : gmap string ParamVal := {[ "tag" := tag ]} in
  let project := Py.or_else project default_project in
  let path := _path_of "func" project name in
  let error := "get function " +:+ project +:+ "/" +:+ name in
  resp <- api_call "GET" path (Some error) (Some params) None None 20 ;;
  j <- resp_json resp ;;
  f <- json_item j "func" ;;
  ret (VJson f).

(** [list_functions(name, project='', tag='', labels=None)] *)
Definition list_functions (name : ParamVal) (project : string)
    (tag : ParamVal) (labels : option (list string)) : M Value :=
  let params : gmap string ParamVal :=
    {[ "project" := PStr (Py.or_else project default_project);
       "name" := name;
       "tag" := tag;
       "label" := PList (labels_or_empty labels) ]} in
  resp <- api_call "GET" "funcs" (Some "list functions") (Some params)
            None None 20 ;;
  j <- resp_json resp ;;
  fs <- json_item j "funcs" ;;
  ret (VJson fs).

(** [except OSError]: an [OSError], and a [RunDBError] when that class
    derives from it. *)
Definition is_oserror (e : Exn) : bool :=
  match e with
  | OSError _ => true
  | RunDBError _ => rundb_error_is_oserror env
  | _ => false
  end.

Definition bad_response : Exn := ValueError "bad function run response".

(** [remote_builder(runtime, with_mlrun)], [runtime] given by the
    dictionary [runtime.to_dict()] returns. *)
Definition remote_builder (runtime : JsonVal) (with_mlrun : bool) : M Value :=
  resp <- try_except
            (let req := JObj [("function", runtime);
                              ("with_mlrun", JBool with_mlrun)] in
             api_call "POST" "build/function" None None None (Some req) 20)
            is_oserror
            (λ err,
               emit (EvLogError ("error submitting build task: "
                                   +:+ exn_str err)) ;;;
               raise (OSError ("error: cannot submit build, "
                                 +:+ exn_str err))) ;;
  if negb (ok resp) then
    emit (EvLogError ("bad resp!!" +:+ newline +:+ content resp)) ;;;
    raise bad_response
  else
    j <- resp_json resp ;;
    ret (VJson j).

(** [get_builder_status(name, project='', tag='', offset=-1)]: [pod] is
    read from the headers; the value returned is [state, resp.content]. *)
Definition get_builder_status (name project tag : ParamVal) (offset : Z)
    : M Value :=
  resp <- try_except
            (let params : gmap string ParamVal :=
               {[ "name" := name;
                  "project" := project;
                  "tag" := tag;
                  "offset" := PStr (Py.str_of_int offset) ]} in
             api_call "GET" "build/status" None (Some params) None None 20)
            is_oserror
            (λ err,
               emit (EvLogError ("error getting build status: "
                                   +:+ exn_str err)) ;;;
               raise (OSError ("error: cannot get build status, "
                                 +:+ exn_str err))) ;;
  if negb (ok resp) then
    emit (EvLogError ("bad resp!!" +:+ newline +:+ content resp)) ;;;
    raise bad_response
  else
    let '(state, pod) :=
      if headers_truthy resp
      then (headers_get resp "function_status" "",
            headers_get resp "builder_pod" "")
      else ("", "") in
    ret (VLog state (content resp)).

(** A call of one of the resource operations, with its arguments. An
    argument that the operation only copies into [params] may be any
    value such a dict holds, [None] included. *)
Inductive Call :=
| CConnect
| CStoreLog (uid project : string) (body : option string) (append : bool)
| CGetLog (uid project : string) (offset size : ParamVal)
| CStoreRun (struct : Struct) (uid project : string) (iter : ParamVal)
| CUpdateRun (updates : Struct) (uid project : string) (iter : ParamVal)
| CReadRun (uid project : string) (iter : ParamVal)
| CDelRun (uid project : string) (iter : ParamVal)
| CListRuns (name : ParamVal) (uid : option string) (project : string)
    (labels : option (list string)) (state : ParamVal) (sort : bool)
    (last : Z) (iter : bool)
| CDelRuns (name : ParamVal) (project : string)
    (labels : option (list string)) (state : ParamVal) (days_ago : Z)
| CStoreArtifact (key : string) (artifact : Struct) (uid : string)
    (tag : ParamVal) (project : string)
| CReadArtifact (key tag project : string)
| CDelArtifact (key : option string) (tag : ParamVal) (project : string)
| CListArtifacts (name : ParamVal) (project : string) (tag : ParamVal)
    (labels : option (list string))
| CDelArtifacts (name : ParamVal) (project : string) (tag : ParamVal)
    (labels : option (list string)) (days_ago : Z)
| CStoreFunction (func : JsonVal) (name project : string) (tag : ParamVal)
| CGetFunction (name project : string) (tag : ParamVal)
| CListFunctions (name : ParamVal) (project : string) (tag : ParamVal)
    (labels : option (list string))
| CRemoteBuilder (runtime : JsonVal) (with_mlrun : bool)
| CGetBuilderStatus (name project tag : ParamVal) (offset : Z).

Definition perform (c : Call) : M Value :=
  match c with
  | CConnect => connect
  | CStoreLog uid project body append => store_log uid project body append
  | CGetLog uid project offset size =>
      st <- get_log uid project offset size ;;
      ret (VLog st.1 st.2)
  | CStoreRun struct uid project iter => store_run struct uid project iter
  | CUpdateRun updates uid project iter => update_run updates uid project iter
  | CReadRun uid project iter => read_run uid project iter
  | CDelRun uid project iter => del_run uid project iter
  | CListRuns name uid project labels state sort last iter =>
      list_runs name uid project labels state sort last iter
  | CDelRuns name project labels state days_ago =>
      del_runs name project labels state days_ago
  | CStoreArtifact key artifact uid tag project =>
      store_artifact key artifact uid tag project
  | CReadArtifact key tag project => read_artifact key tag project
  | CDelArtifact key tag project => del_artifact key tag project
  | CListArtifacts name project tag labels =>
      list_artifacts name project tag labels
  | CDelArtifacts name project tag labels days_ago =>
      del_artifacts name project tag labels days_ago
  | CStoreFunction func name project tag =>
      store_function func name project tag
  | CGetFunction name project tag => get_function name project tag
  | CListFunctions name project tag labels =>
      list_functions name project tag labels
  | CRemoteBuilder runtime with_mlrun => remote_builder runtime with_mlrun
  | CGetBuilderStatus name project tag offset =>
      get_builder_status name project tag offset
  end.

End Client.





(** ** Concrete services used in examples *)

Definition demo_client : HTTPRunDB :=
  {| base_url := "http://db:8080"; user := ""; password := ""; token := "" |}.

(** A service that gives the same outcome to every request. *)
Definition const_env (o : Outcome) : Env :=
  {| server := λ _ _, o;
     json_loads := λ _, None;
     rundb_error_is_oserror := false |}.

Definition response_with (code : Z) (hdrs : gmap string string)
    (body : string) : Response :=
  {| status_code := code; reason := ""; url := "";
     headers := hdrs; content := body |}.

Definition log_response (state body : string) : Response :=
  response_with 200 {[ "function_status" := state ]} body.

(** The [offset] a request asks for. *)
Definition offset_of (req : Request) : option ParamVal :=
  req_params req ≫= (λ ps : gmap string ParamVal, ps !! "offset").

(** The log of a run that prints [AB], then [CD], then completes: what
    the service holds at the offsets 0, 2 and 4. Any other offset is
    refused. *)
Definition watch_scenario_server (_ : list Event) (req : Request) : Outcome :=
  match offset_of req with
  | Some (PInt 0) => Responds (log_response "running" "AB")
  | Some (PInt 2) => Responds (log_response "running" "CD")
  | Some (PInt 4) => Responds (log_response "completed" "")
  | _ => Fails ConnectionError "no log at this offset"
  end.

Definition watch_scenario_env : Env :=
  {| server := watch_scenario_server;
     json_loads := λ _, None;
     rundb_error_is_oserror := false |}.

(** The request [get_log] sends. *)
Definition get_log_request (self : HTTPRunDB) (uid project : string)
    (offset size : ParamVal) : Request :=
  build_request self "GET" (_path_of "log" project uid)
    (Some {[ "offset" := offset; "size" := size ]}) None None 20.

(** The code points of an ASCII string. *)
Definition codepoints (s : string) : list N := Utf8.bytes_of s.

(** The error-log line of the [not resp.ok] branches is in the trace. *)
Definition bad_resp_logged (tr : list Event) : Prop :=
  ∃ body, EvLogError ("bad resp!!" +:+ newline +:+ body) ∈ tr.

(** [a] occurs in [s]. *)
Definition contains (s a : string) : Prop :=
  ∃ pre post, s = pre +:+ a +:+ post.


(** Every request a computation sends satisfies [P]; it only appends to
    the trace. *)
Definition sends_only {A} (P : Request → Prop) (m : M A) : Prop :=
  ∀ tr, ∃ evs,
    (m tr).2 = tr ++ evs ∧ ∀ req, req ∈ requests_of evs → P req.

(** A service with one outcome for every request, one result for every
    JSON decoding, and a given answer to whether [RunDBError] is an
    [OSError]. *)
Definition fixed_env (o : Outcome) (j : option JsonVal) (oserror : bool)
    : Env :=
  {| server := λ _ _, o;
     json_loads := λ _, j;
     rundb_error_is_oserror := oserror |}.

(** ** Predicates used in the statements about the operations *)

(** The number of requests a call of an operation sends: none for
    [store_log] without a body or with an empty one, one otherwise. *)
Definition request_count (c : Call) : nat :=
  match c with
  | CStoreLog _ _ None _ => 0
  | CStoreLog _ _ (Some b) _ => if Py.truthy b then 1 else 0
  | _ => 1
  end.

(** A request without a body: neither [data] nor [json]. *)
Definition bodyless (req : Request) : Prop :=
  req_data req = None ∧ req_json req = None.

(** The body discipline of a request: GET and DELETE carry nothing, and
    [data] and [json] are never sent together. *)
Definition body_discipline (req : Request) : Prop :=
  (req_method req ∈ ["GET"; "DELETE"] → bodyless req)
  ∧ (req_data req = None ∨ req_json req = None)
  ∧ req_method req ∈ ["GET"; "POST"; "PATCH"; "DELETE"].

(** The timeout an operation passes: 3 for the health check of
    [connect], the default 20 for the others. *)
Definition timeout_of (c : Call) : Z :=
  match c with
  | CConnect => 3
  | _ => 20
  end.

(** A request to the API root of the client, with a given timeout. *)
Definition addressed (self : HTTPRunDB) (timeout : Z) (req : Request) : Prop :=
  (∃ path, req_url req = base_url self +:+ "/api/" +:+ path)
  ∧ req_timeout req = timeout.

(** The credentials of a request are those of the client: basic auth
    when a user is set, else a bearer header when a token is set, else
    nothing; never both. *)
Definition authenticated (self : HTTPRunDB) (req : Request) : Prop :=
  (req_auth req = None ∨ req_headers req = None)
  ∧ (Py.truthy (user self) = true →
     req_auth req = Some (user self, password self))
  ∧ (Py.truthy (user self) = false → Py.truthy (token self) = true →
     req_headers req = Some {[ "Authorization" := "Bearer " +:+ token self ]})
  ∧ (Py.truthy (user self) = false → Py.truthy (token self) = false →
     req_auth req = None ∧ req_headers req = None).


(** Started from the trace [tr], a computation sends exactly one
    request, whose [params] hold [value] under [key]. *)
Definition sends_param (key : string) (value : ParamVal) {A} (m : M A)
    (tr : list Event) : Prop :=
  ∃ req ps,
    requests_of (m tr).2 = requests_of tr ++ [req]
    ∧ req_params req = Some ps
    ∧ ps !! key = Some value.

(** The keys of a JSON object, in order. *)
Definition json_keys (fields : list (string * JsonVal)) : list string :=
  fields.*1.

(** A string without a slash. *)
Definition slash_free (s : string) : bool :=
  forallb (λ a, negb (Ascii.eqb a "/")) (list_ascii_of_string s).

(** A byte string of ASCII characters only. *)
Definition is_ascii (s : string) : bool :=
  forallb (λ b, (b <? 128)%N) (Utf8.bytes_of s).

(** The events a computation adds to a trace. *)
Definition adds {A} (m : M A) (tr : list Event) (evs : list Event) : Prop :=
  (m tr).2 = tr ++ evs.

(** ** The path builder: properties *)

Section PathBuilder.

Implicit Types kind project uid : string.

Lemma string_app_assoc (a b c : string) : a +:+ b +:+ c = (a +:+ b) +:+ c.
Proof.
  induction a as [|x a IH]; [done|].
  change (String x (a +:+ b +:+ c) = String x ((a +:+ b) +:+ c)).
  by rewrite IH.
Qed.

Lemma or_else_truthy a b : Py.truthy b = true → Py.truthy (Py.or_else a b) = true.
Proof. intros Hb. unfold Py.or_else. by destruct a. Qed.

Lemma path_of_form kind project uid :
  _path_of kind project uid
  = kind +:+ "/" +:+ Py.or_else project default_project +:+ "/" +:+ uid.
Proof. reflexivity. Qed.

(** C4: an empty project and the default project give the same path, and
    that path is kind/default/identifier. *)
Theorem path_of_empty_project_is_default kind uid :
  _path_of kind "" uid = _path_of kind default_project uid
  ∧ _path_of kind "" uid = kind +:+ "/" +:+ default_project +:+ "/" +:+ uid.
Proof. split; reflexivity. Qed.

Lemma split_nonempty sep s : Py.split sep s ≠ [].
Proof. destruct s as [|a r]; simpl; [done|]. by repeat case_match. Qed.

Lemma split_app_sep sep a b :
  Py.split sep (a +:+ String sep b) = Py.split sep a ++ Py.split sep b.
Proof.
  induction a as [|c a IH]; simpl.
  - by rewrite Ascii.eqb_refl.
  - rewrite IH. destruct (Ascii.eqb c sep); [done|].
    pose proof (split_nonempty sep a).
    by destruct (Py.split sep a).
Qed.

Lemma segments_path_of kind project uid :
  segments (_path_of kind project uid)
  = segments kind ++ segments (Py.or_else project default_project)
      ++ segments uid.
Proof.
  unfold segments. rewrite path_of_form.
  change (kind +:+ "/" +:+ ?p +:+ "/" +:+ uid)
    with (kind +:+ String "/" (p +:+ String "/" uid)).
  by rewrite !split_app_sep.
Qed.

(** C5, refuted as stated: with an empty identifier the path ends in a
    slash, so its last segment is empty. *)
Lemma path_of_empty_identifier_has_empty_segment :
  _path_of "log" "" "" = "log/default/"
  ∧ has_empty_segment (_path_of "log" "" "") = true.
Proof. split; reflexivity. Qed.

(** C5, as amended: the path is kind/project/identifier with an empty
    project resolved to the default, its project part is never empty, and
    it has an empty segment exactly when the kind, the resolved project
    or the identifier has one. *)
Theorem path_of_segments kind project uid :
  _path_of kind project uid
  = kind +:+ "/" +:+ Py.or_else project default_project +:+ "/" +:+ uid
  ∧ Py.or_else "" default_project = default_project
  ∧ Py.truthy (Py.or_else project default_project) = true
  ∧ has_empty_segment (_path_of kind project uid)
    = has_empty_segment kind
      || has_empty_segment (Py.or_else project default_project)
      || has_empty_segment uid.
Proof.
  split_and!; try reflexivity.
  - by apply or_else_truthy.
  - unfold has_empty_segment. rewrite segments_path_of.
    by rewrite !existsb_app, orb_assoc.
Qed.

End PathBuilder.

(** ** The log watcher *)

Section LogWatcher.

(** C1: against the service that holds "AB" at offset 0, "CD" at offset 2
    and reports completion at offset 4, [watch_log] with [watch=True] from
    offset 0 prints "AB" then "CD", fetches at the offsets 0, 2 and 4
    (each the previous one plus the length of the chunk just read),
    sleeps 2 before each further fetch, stops after the first status
    outside pending/running, and returns "completed". *)
Theorem watch_log_scenario (self : HTTPRunDB) (uid project : string)
    (fuel : nat) :
  watch_log watch_scenario_env self (S (S fuel)) uid project true 0 []
  = (Ok "completed",
     [ EvRequest (get_log_request self uid project 0 0);
       EvPrint (codepoints "AB") newline;
       EvSleep 2;
       EvRequest (get_log_request self uid project (0 + Py.len "AB") 0);
       EvPrint (codepoints "CD") "";
       EvSleep 2;
       EvRequest (get_log_request self uid project
                    (0 + Py.len "AB" + Py.len "CD") 0) ])
  ∧ offset_of <$> requests_of
      (watch_log watch_scenario_env self (S (S fuel)) uid project true 0 []).2
    = [Some (PInt 0); Some (PInt 2); Some (PInt 4)]
  ∧ prints_of
      (watch_log watch_scenario_env self (S (S fuel)) uid project true 0 []).2
    = [(codepoints "AB", newline); (codepoints "CD", "")].
Proof.
  assert (watch_log watch_scenario_env self (S (S fuel)) uid project true 0 []
  = (Ok "completed",
     [ EvRequest (get_log_request self uid project 0 0);
       EvPrint (codepoints "AB") newline;
       EvSleep 2;
       EvRequest (get_log_request self uid project (0 + Py.len "AB") 0);
       EvPrint (codepoints "CD") "";
       EvSleep 2;
       EvRequest (get_log_request self uid project
                    (0 + Py.len "AB" + Py.len "CD") 0) ])) as ->.
  { destruct fuel; vm_compute; reflexivity. }
  split_and!; [reflexivity| |]; vm_compute; reflexivity.
Qed.

End LogWatcher.

(** ** The transport *)

Section Transport.

Variable env : Env.
Variable self : HTTPRunDB.

Lemma raise_for_status_Some (r : Response) :
  400 ≤ status_code r < 600 → ∃ cause, raise_for_status r = Some (HTTPError, cause).
Proof.
  intros H. unfold raise_for_status.
  destruct (Z.ltb_spec (status_code r) 500).
  - replace (400 <=? status_code r) with true by lia. simpl. eauto.
  - replace (400 <=? status_code r) with true by lia.
    replace (500 <=? status_code r) with true by lia.
    replace (status_code r <? 600) with true by lia. simpl. eauto.
Qed.

Lemma raise_for_status_None (r : Response) :
  raise_for_status r = None ↔ ¬ (400 ≤ status_code r < 600).
Proof.
  split.
  - intros Hn Hr. destruct (raise_for_status_Some r Hr) as [c Hc]. congruence.
  - intros Hr. unfold raise_for_status.
    destruct (Z.leb_spec 400 (status_code r)),
             (Z.ltb_spec (status_code r) 500),
             (Z.leb_spec 500 (status_code r)),
             (Z.ltb_spec (status_code r) 600); simpl; try reflexivity; lia.
Qed.

Lemma ok_true (r : Response) : ok r = true ↔ raise_for_status r = None.
Proof. unfold ok. destruct (raise_for_status r); split; congruence. Qed.

(** One call of [api_call] is one request; the outcome follows the answer. *)
Lemma api_call_run method path error params body json timeout tr :
  let req := build_request self method path params body json timeout in
  api_call env self method path error params body json timeout tr
  = (match server env tr req with
     | Fails _ cause =>
         Raise (RunDBError (error_message error method (req_url req) cause))
     | Responds resp =>
         match raise_for_status resp with
         | Some (_, cause) =>
             Raise (RunDBError (error_message error method (req_url req) cause))
         | None => Ok resp
         end
     end, tr ++ [EvRequest req]).
Proof.
  unfold api_call, bind, send. simpl.
  destruct (server env tr _) as [resp|k cause]; [|reflexivity].
  destruct (raise_for_status resp) as [[k cause]|]; reflexivity.
Qed.

Lemma api_call_Ok method path error params body json timeout tr resp tr' :
  api_call env self method path error params body json timeout tr = (Ok resp, tr') →
  server env tr (build_request self method path params body json timeout)
    = Responds resp
  ∧ raise_for_status resp = None
  ∧ tr' = tr ++ [EvRequest (build_request self method path params body json timeout)].
Proof.
  rewrite api_call_run. simpl. intros H.
  destruct (server env tr _) as [r|k cause]; [|by inversion H].
  destruct (raise_for_status r) as [[k cause]|] eqn:E; inversion H; subst.
  done.
Qed.

(** C3, as amended: when [requests.request] raises (connection error,
    timeout, any other request exception) or answers with a status from
    400 to 599, [api_call] raises [RunDBError] and nothing else, after
    the one request; the message is the error context of the caller when
    that is a non-empty string, and otherwise (no context, or an empty
    one) "METHOD URL, error: cause" with URL the base URL, "/api/" and
    the path, so that it contains the method, the URL and the path. An
    answer with any other status, 1xx and 3xx included, is returned as
    it is, without an error. *)
Theorem api_call_failure method path error params body json timeout tr :
  let req := build_request self method path params body json timeout in
  let url := base_url self +:+ "/api/" +:+ path in
  (∀ kind cause,
     server env tr req = Fails kind cause →
     api_call env self method path error params body json timeout tr
     = (Raise (RunDBError (error_message error method url cause)),
        tr ++ [EvRequest req]))
  ∧ (∀ resp,
       server env tr req = Responds resp →
       400 ≤ status_code resp < 600 →
       ∃ cause,
         api_call env self method path error params body json timeout tr
         = (Raise (RunDBError (error_message error method url cause)),
            tr ++ [EvRequest req]))
  ∧ (∀ e cause,
       Py.truthy e = true → error_message (Some e) method url cause = e)
  ∧ (∀ cause,
       error_message None method url cause
       = method +:+ " " +:+ url +:+ ", error: " +:+ cause
       ∧ contains (error_message None method url cause) method
       ∧ contains (error_message None method url cause) url
       ∧ contains (error_message None method url cause) path)
  ∧ (∀ cause,
       error_message (Some "") method url cause
       = error_message None method url cause)
  ∧ (∀ resp,
       server env tr req = Responds resp →
       ¬ (400 ≤ status_code resp < 600) →
       api_call env self method path error params body json timeout tr
       = (Ok resp, tr ++ [EvRequest req])).
Proof.
  intros req url. split_and!.
  - intros kind cause Hs. rewrite api_call_run. simpl. fold req.
    by rewrite Hs.
  - intros resp Hs Hcode.
    destruct (raise_for_status_Some resp Hcode) as [cause Hc].
    exists cause. rewrite api_call_run. simpl. fold req.
    by rewrite Hs, Hc.
  - intros e cause He. unfold error_message, Py.or_else. by rewrite He.
  - intros cause. split_and!; [reflexivity| | |].
    + exists "", (" " +:+ url +:+ ", error: " +:+ cause). reflexivity.
    + exists (method +:+ " "), (", error: " +:+ cause). simpl.
      unfold error_message. by rewrite <- !string_app_assoc.
    + exists (method +:+ " " +:+ base_url self +:+ "/api/"),
        (", error: " +:+ cause).
      unfold error_message, url. by rewrite <- !string_app_assoc.
  - reflexivity.
  - intros resp Hs Hcode. rewrite api_call_run. simpl. fold req.
    rewrite Hs. by rewrite (proj2 (raise_for_status_None resp) Hcode).
Qed.

(** C3, refuted as stated: a 304 answer is not a 2xx one, and [api_call]
    returns it without raising. *)
Lemma api_call_returns_304 :
  let resp := response_with 304 ∅ "" in
  ¬ (200 ≤ status_code resp < 300)
  ∧ api_call (const_env (Responds resp)) demo_client
      "GET" "runs" None None None None 20 []
    = (Ok resp,
       [EvRequest (build_request demo_client "GET" "runs" None None None 20)]).
Proof. split; [simpl; lia | reflexivity]. Qed.

End Transport.

Lemma api_call_failure_witness :
  api_call (const_env (Fails Timeout "timed out")) demo_client
    "GET" "runs" None None None None 20 []
  = (Raise (RunDBError "GET http://db:8080/api/runs, error: timed out"),
     [EvRequest (build_request demo_client "GET" "runs" None None None 20)])
  ∧ (∃ cause,
       api_call (const_env (Responds (response_with 404 ∅ ""))) demo_client
         "GET" "runs" None None None None 20 []
       = (Raise (RunDBError ("GET http://db:8080/api/runs, error: " +:+ cause)),
          [EvRequest (build_request demo_client "GET" "runs" None None None 20)]))
  ∧ error_message (Some "list runs") "GET" "http://db:8080/api/runs" "timed out"
    = "list runs"
  ∧ api_call (const_env (Responds (response_with 101 ∅ ""))) demo_client
      "GET" "runs" None None None None 20 []
    = (Ok (response_with 101 ∅ ""),
       [EvRequest (build_request demo_client "GET" "runs" None None None 20)]).
Proof.
  split_and!.
  - exact (proj1 (api_call_failure (const_env (Fails Timeout "timed out"))
                    demo_client "GET" "runs" None None None None 20 [])
             Timeout "timed out" eq_refl).
  - assert (400 ≤ status_code (response_with 404 ∅ "") < 600) as Hcode
      by (simpl; lia).
    exact (proj1 (proj2 (api_call_failure
                           (const_env (Responds (response_with 404 ∅ "")))
                           demo_client "GET" "runs" None None None None 20 []))
             (response_with 404 ∅ "") eq_refl Hcode).
  - exact (proj1 (proj2 (proj2 (api_call_failure
                                  (const_env (Fails Timeout "timed out"))
                                  demo_client "GET" "runs" None None None None
                                  20 [])))
             "list runs" "timed out" eq_refl).
  - assert (¬ (400 ≤ status_code (response_with 101 ∅ "") < 600)) as Hcode
      by (simpl; lia).
    exact (proj2 (proj2 (proj2 (proj2 (proj2
             (api_call_failure
                (const_env (Responds (response_with 101 ∅ "")))
                demo_client "GET" "runs" None None None None 20 [])))))
             (response_with 101 ∅ "") eq_refl Hcode).
Defined.

(** ** The log operations *)

(** Reading the requests and the sleeps off a trace built by appending. *)
Ltac trace_simpl :=
  simpl; unfold requests_of, sleeps_of, prints_of, log_errors_of;
  rewrite ?omap_app; simpl; rewrite ?app_nil_r.

Section Logs.

Variable env : Env.
Variable self : HTTPRunDB.

(** [get_log] is one GET; what it gives back follows the answer. *)
Lemma get_log_run uid project offset size tr :
  let req := get_log_request self uid project offset size in
  get_log env self uid project offset size tr
  = (match server env tr req with
     | Fails _ cause =>
         Raise (RunDBError
                  (error_message (Some ("get log " +:+ project +:+ "/" +:+ uid))
                     "GET" (req_url req) cause))
     | Responds resp =>
         match raise_for_status resp with
         | Some (_, cause) =>
             Raise (RunDBError
                      (error_message
                         (Some ("get log " +:+ project +:+ "/" +:+ uid))
                         "GET" (req_url req) cause))
         | None =>
             if headers_truthy resp
             then Ok (headers_get resp "function_status" "", content resp)
             else Raise (UnboundLocalError "state")
         end
     end, tr ++ [EvRequest req]).
Proof.
  unfold get_log, bind. rewrite api_call_run. simpl.
  unfold get_log_request.
  destruct (server env tr _) as [resp|k cause]; [|reflexivity].
  destruct (raise_for_status resp) as [[k cause]|]; [reflexivity|].
  by destruct (headers_truthy resp).
Qed.

Lemma headers_truthy_spec (resp : Response) :
  headers_truthy resp = true ↔ headers resp ≠ ∅.
Proof. unfold headers_truthy. by rewrite bool_decide_eq_true. Qed.

(** C7: [get_log] returns a pair only for a response whose header map is
    not empty, the status being the [function_status] header; for a
    response that passes [api_call] with an empty header map it raises
    the unbound-local error for [state]. *)
Theorem get_log_needs_headers uid project offset size tr :
  let req := get_log_request self uid project offset size in
  (∀ state body tr',
     get_log env self uid project offset size tr = (Ok (state, body), tr') →
     ∃ resp,
       server env tr req = Responds resp
       ∧ headers resp ≠ ∅
       ∧ state = headers_get resp "function_status" ""
       ∧ body = content resp)
  ∧ (∀ resp,
       server env tr req = Responds resp →
       raise_for_status resp = None →
       headers resp = ∅ →
       get_log env self uid project offset size tr
       = (Raise (UnboundLocalError "state"), tr ++ [EvRequest req])).
Proof.
  intros req. split.
  - intros state body tr'. rewrite get_log_run. simpl. fold req.
    destruct (server env tr req) as [resp|k cause]; [|by inversion 1].
    destruct (raise_for_status resp) as [[k cause]|]; [by inversion 1|].
    destruct (headers_truthy resp) eqn:Hh; [|by inversion 1].
    inversion 1; subst. exists resp. split_and!; try done.
    by apply headers_truthy_spec.
  - intros resp Hs Hr Hh. rewrite get_log_run. simpl. fold req.
    rewrite Hs, Hr.
    replace (headers_truthy resp) with false; [done|].
    symmetry. apply not_true_iff_false. rewrite headers_truthy_spec. tauto.
Qed.

(** C8: [store_log] without a body, or with an empty one, returns [None]
    and leaves the trace as it was (no request at all); with a non-empty
    body it sends one request, a POST carrying the body. *)
Theorem store_log_calls uid project append tr :
  store_log env self uid project None append tr = (Ok VNone, tr)
  ∧ store_log env self uid project (Some "") append tr = (Ok VNone, tr)
  ∧ ∀ c body,
      let req :=
        build_request self "POST" (_path_of "log" project uid)
          (Some {[ "append" := PStr (bool2str append) ]})
          (Some (String c body)) None 20 in
      (store_log env self uid project (Some (String c body)) append tr).2
      = tr ++ [EvRequest req]
      ∧ req_method req = "POST"
      ∧ requests_of
          (store_log env self uid project (Some (String c body)) append tr).2
        = requests_of tr ++ [req].
Proof.
  split_and!; try reflexivity.
  intros c body req.
  assert ((store_log env self uid project (Some (String c body)) append tr).2
          = tr ++ [EvRequest req]) as Htr.
  { unfold store_log. simpl. unfold bind. rewrite api_call_run. simpl.
    fold req. destruct (server env tr req) as [resp|k cause]; [|reflexivity].
    by destruct (raise_for_status resp) as [[k cause]|]. }
  split_and!; [exact Htr|reflexivity|].
  rewrite Htr. unfold requests_of. by rewrite omap_app.
Qed.

(** C9: with [watch=False], [watch_log] sends exactly one request, the
    [get_log] at the given offset, never sleeps and never loops; whatever
    status that fetch reports (pending and running included) is returned
    at once, the text, if any, being printed first. *)
Theorem watch_log_without_watch fuel uid project (offset : Z) tr :
  let req := get_log_request self uid project offset 0 in
  let out := watch_log env self fuel uid project false offset tr in
  requests_of out.2 = requests_of tr ++ [req]
  ∧ sleeps_of out.2 = sleeps_of tr
  ∧ out.1 ≠ Diverge
  ∧ ∀ state body tr',
      get_log env self uid project offset 0 tr = (Ok (state, body), tr') →
      is_Some (Utf8.decode body) →
      out.1 = Ok state.
Proof.
  intros req out. subst out. unfold watch_log, bind.
  rewrite get_log_run. simpl. fold req.
  destruct (server env tr req) as [resp|k cause];
    [|trace_simpl; split_and!; try done; by inversion 1].
  destruct (raise_for_status resp) as [[k cause]|];
    [trace_simpl; split_and!; try done; by inversion 1|].
  destruct (headers_truthy resp);
    [|trace_simpl; split_and!; try done; by inversion 1].
  unfold print_log.
  destruct (Py.truthy (content resp)); simpl.
  - destruct (Utf8.decode (content resp)) as [t|] eqn:Hd;
      trace_simpl; split_and!; try done.
    + intros state body tr' Hg _. by inversion Hg.
    + intros state body tr' Hg [t Ht]. inversion Hg; subst. congruence.
  - trace_simpl. split_and!; try done.
    intros state body tr' Hg _. by inversion Hg.
Qed.

End Logs.

Lemma get_log_needs_headers_witness :
  (∃ resp,
     server (const_env (Responds (log_response "running" "AB"))) []
       (get_log_request demo_client "u1" "" 0 0) = Responds resp
     ∧ headers resp ≠ ∅
     ∧ "running" = headers_get resp "function_status" ""
     ∧ "AB" = content resp)
  ∧ get_log (const_env (Responds (response_with 200 ∅ "AB"))) demo_client
      "u1" "" 0 0 []
    = (Raise (UnboundLocalError "state"),
       [EvRequest (get_log_request demo_client "u1" "" 0 0)]).
Proof.
  split.
  - exact (proj1 (get_log_needs_headers
                    (const_env (Responds (log_response "running" "AB")))
                    demo_client "u1" "" 0 0 [])
             "running" "AB"
             [EvRequest (get_log_request demo_client "u1" "" 0 0)] eq_refl).
  - exact (proj2 (get_log_needs_headers
                    (const_env (Responds (response_with 200 ∅ "AB")))
                    demo_client "u1" "" 0 0 [])
             (response_with 200 ∅ "AB") eq_refl eq_refl eq_refl).
Defined.

Lemma watch_log_without_watch_witness :
  (watch_log (const_env (Responds (log_response "running" "AB"))) demo_client
     0 "u1" "" false 0 []).1 = Ok "running".
Proof.
  assert (is_Some (Utf8.decode "AB")) as Hd by (eexists; reflexivity).
  exact (proj2 (proj2 (proj2 (watch_log_without_watch
                                (const_env (Responds (log_response "running" "AB")))
                                demo_client 0 "u1" "" 0 [])))
           "running" "AB"
           [EvRequest (get_log_request demo_client "u1" "" 0 0)] eq_refl Hd).
Defined.

(** ** The build operations *)

Section Builds.

Variable env : Env.
Variable self : HTTPRunDB.

Lemma bad_resp_logged_app tr evs :
  (∀ body, EvLogError ("bad resp!!" +:+ newline +:+ body) ∉ evs) →
  bad_resp_logged (tr ++ evs) → bad_resp_logged tr.
Proof.
  intros Hevs [body Hb]. exists body.
  apply elem_of_app in Hb as [Hb|Hb]; [done|]. by destruct (Hevs body).
Qed.

Lemma request_not_log req body :
  EvLogError ("bad resp!!" +:+ newline +:+ body) ∉ [EvRequest req].
Proof. intros H. apply list_elem_of_singleton in H. discriminate. Qed.

Lemma other_log_not_bad_resp req prefix rest body :
  String.get 0 prefix = Some "e"%char →
  EvLogError ("bad resp!!" +:+ newline +:+ body)
    ∉ [EvRequest req; EvLogError (prefix +:+ rest)].
Proof.
  intros Hp H. apply elem_of_cons in H as [H|H]; [discriminate|].
  apply list_elem_of_singleton in H. inversion H as [Hs].
  destruct prefix as [|c prefix]; [discriminate|].
  cbv in Hp. inversion Hp; subst. cbv in Hs. discriminate.
Qed.

(** C6, as amended: a response that [api_call] returns has a status
    outside 400..599, which is what [resp.ok] tests, so the
    [not resp.ok] branches of [remote_builder] and [get_builder_status]
    are never taken: neither call raises the "bad function run response"
    error nor writes its log line. *)
Theorem api_call_result_is_ok :
  (∀ method path error params body json timeout tr resp tr',
     api_call env self method path error params body json timeout tr
       = (Ok resp, tr') →
     ok resp = true ∧ ¬ (400 ≤ status_code resp < 600))
  ∧ (∀ runtime with_mlrun tr,
       (remote_builder env self runtime with_mlrun tr).1 ≠ Raise bad_response
       ∧ (¬ bad_resp_logged tr →
          ¬ bad_resp_logged (remote_builder env self runtime with_mlrun tr).2))
  ∧ (∀ name project tag offset tr,
       (get_builder_status env self name project tag offset tr).1
         ≠ Raise bad_response
       ∧ (¬ bad_resp_logged tr →
          ¬ bad_resp_logged
              (get_builder_status env self name project tag offset tr).2)).
Proof.
  split_and!.
  - intros method path error params body json timeout tr resp tr' H.
    apply api_call_Ok in H as (_ & Hr & _). split.
    + by apply ok_true.
    + by apply raise_for_status_None.
  - intros runtime with_mlrun tr.
    unfold remote_builder, bind, try_except. rewrite api_call_run. simpl.
    destruct (server env tr _) as [resp|k cause].
    + unfold ok. destruct (raise_for_status resp) as [[k cause]|] eqn:Hr.
      * unfold is_oserror; destruct (rundb_error_is_oserror env); simpl;
          (split; [done|]); intros Hn Hb; apply Hn; revert Hb;
          rewrite <- ?app_assoc; apply bad_resp_logged_app; intros b;
          [by apply other_log_not_bad_resp | apply request_not_log].
      * simpl. rewrite Hr. simpl. unfold resp_json.
        destruct (json_loads env (content resp)); simpl; (split; [done|]); intros Hn Hb; apply Hn; revert Hb;
          apply bad_resp_logged_app; intros b; apply request_not_log.
    + unfold is_oserror; destruct (rundb_error_is_oserror env); simpl;
          (split; [done|]); intros Hn Hb; apply Hn; revert Hb;
        rewrite <- ?app_assoc; apply bad_resp_logged_app; intros b;
        [by apply other_log_not_bad_resp | apply request_not_log].
  - intros name project tag offset tr.
    unfold get_builder_status, bind, try_except. rewrite api_call_run. simpl.
    destruct (server env tr _) as [resp|k cause].
    + unfold ok. destruct (raise_for_status resp) as [[k cause]|] eqn:Hr.
      * unfold is_oserror; destruct (rundb_error_is_oserror env); simpl;
          (split; [done|]); intros Hn Hb; apply Hn; revert Hb;
          rewrite <- ?app_assoc; apply bad_resp_logged_app; intros b;
          [by apply other_log_not_bad_resp | apply request_not_log].
      * simpl. rewrite Hr. simpl.
        destruct (headers_truthy resp); simpl; (split; [done|]); intros Hn Hb; apply Hn; revert Hb;
          apply bad_resp_logged_app; intros b; apply request_not_log.
    + unfold is_oserror; destruct (rundb_error_is_oserror env); simpl;
          (split; [done|]); intros Hn Hb; apply Hn; revert Hb;
        rewrite <- ?app_assoc; apply bad_resp_logged_app; intros b;
        [by apply other_log_not_bad_resp | apply request_not_log].
Qed.

(** What [get_builder_status] returns for an answer that passes
    [api_call]: the status header and the body, whatever [builder_pod]
    holds. *)
Lemma get_builder_status_result name project tag offset tr resp tr' :
  api_call env self "GET" "build/status" None
    (Some {[ "name" := PStr name; "project" := PStr project;
             "tag" := PStr tag; "offset" := PStr (Py.str_of_int offset) ]})
    None None 20 tr = (Ok resp, tr') →
  get_builder_status env self name project tag offset tr
  = (Ok (VLog (if headers_truthy resp
               then headers_get resp "function_status" "" else "")
           (content resp)), tr').
Proof.
  intros Hcall. pose proof Hcall as (_ & Hr & _)%api_call_Ok.
  unfold get_builder_status, bind, try_except. rewrite Hcall. simpl.
  unfold ok. rewrite Hr. simpl. by destruct (headers_truthy resp).
Qed.

End Builds.

(** C6, refuted as stated: [api_call] returns a 300 answer, which is not
    a 2xx one. *)
Lemma api_call_returns_non_2xx :
  let resp := response_with 300 ∅ "{}" in
  api_call (const_env (Responds resp)) demo_client
    "POST" "build/function" None None None (Some (JObj [])) 20 []
  = (Ok resp,
     [EvRequest (build_request demo_client "POST" "build/function" None None
                   (Some (JObj [])) 20)])
  ∧ ok resp = true
  ∧ ¬ (200 ≤ status_code resp < 300).
Proof. split_and!; [reflexivity|reflexivity|simpl; lia]. Qed.

Lemma no_bad_resp_logged_nil : ¬ bad_resp_logged [].
Proof. intros [body Hb]. by apply elem_of_nil in Hb. Qed.

Lemma api_call_result_is_ok_witness :
  (ok (log_response "ready" "") = true
   ∧ ¬ (400 ≤ status_code (log_response "ready" "") < 600))
  ∧ ¬ bad_resp_logged
        (remote_builder (const_env (Responds (log_response "ready" "")))
           demo_client (JObj []) true []).2
  ∧ ¬ bad_resp_logged
        (get_builder_status (const_env (Responds (log_response "ready" "")))
           demo_client "f" "" "" (-1) []).2.
Proof.
  pose proof (api_call_result_is_ok
                (const_env (Responds (log_response "ready" ""))) demo_client)
    as (Hok & Hrb & Hgs).
  split; [|split].
  - exact (Hok "GET" "build/status" None None None None 20 []
             (log_response "ready" "")
             [EvRequest (build_request demo_client "GET" "build/status"
                           None None None 20)] eq_refl).
  - exact (proj2 (Hrb (JObj []) true []) no_bad_resp_logged_nil).
  - exact (proj2 (Hgs "f" "" "" (-1) []) no_bad_resp_logged_nil).
Defined.

(** C10: [get_builder_status] reads the [builder_pod] header and then
    returns the status and the body only; two answers that differ in the
    pod name give the same result, which holds no pod name. *)
Theorem get_builder_status_drops_pod :
  let answer pod :=
    response_with 200
      {[ "function_status" := "ready"; "builder_pod" := pod ]} "built" in
  headers_get (answer "pod-1") "builder_pod" "" = "pod-1"
  ∧ (get_builder_status (const_env (Responds (answer "pod-1"))) demo_client
       "f" "" "" (-1) []).1 = Ok (VLog "ready" "built")
  ∧ (get_builder_status (const_env (Responds (answer "pod-2"))) demo_client
       "f" "" "" (-1) []).1 = Ok (VLog "ready" "built").
Proof. split_and!; vm_compute; reflexivity. Qed.

(** ** Query parameters *)

Section Params.

Variable env : Env.
Variable dict_to_json : JsonVal → string.
Variable json_dumps : JsonVal → string.
Variable self : HTTPRunDB.





Section SendsOnly.

Context {A B : Type} (P : Request → Prop).

Lemma sends_only_ret (a : A) : sends_only P (ret a).
Proof. intros tr. exists []. simpl. rewrite app_nil_r. split; [done|]. by inversion 1. Qed.

Lemma sends_only_raise (e : Exn) : sends_only P (raise (A:=A) e).
Proof. intros tr. exists []. simpl. rewrite app_nil_r. split; [done|]. by inversion 1. Qed.

Lemma sends_only_log (msg : string) : sends_only P (emit (EvLogError msg)).
Proof. intros tr. exists [EvLogError msg]. split; [done|]. by inversion 1. Qed.

Lemma sends_only_bind (m : M A) (k : A → M B) :
  sends_only P m → (∀ a, sends_only P (k a)) → sends_only P (bind m k).
Proof.
  intros Hm Hk tr. unfold bind.
  destruct (Hm tr) as (evs & Htr & Hevs).
  destruct (m tr) as [[a|e|] tr']; simpl in Htr; subst tr'.
  - destruct (Hk a (tr ++ evs)) as (evs' & Htr' & Hevs').
    exists (evs ++ evs'). rewrite Htr', app_assoc. split; [done|].
    intros req. unfold requests_of. rewrite omap_app, elem_of_app.
    intros [?|?]; [by apply Hevs | by apply Hevs'].
  - by exists evs.
  - by exists evs.
Qed.

Lemma sends_only_try_except (m : M A) (catches : Exn → bool)
    (handler : Exn → M A) :
  sends_only P m → (∀ e, sends_only P (handler e)) →
  sends_only P (try_except m catches handler).
Proof.
  intros Hm Hh tr. unfold try_except.
  destruct (Hm tr) as (evs & Htr & Hevs).
  destruct (m tr) as [[a|e|] tr']; simpl in Htr; subst tr'.
  - by exists evs.
  - destruct (catches e); [|by exists evs].
    destruct (Hh e (tr ++ evs)) as (evs' & Htr' & Hevs').
    exists (evs ++ evs'). rewrite Htr', app_assoc. split; [done|].
    intros req. unfold requests_of. rewrite omap_app, elem_of_app.
    intros [?|?]; [by apply Hevs | by apply Hevs'].
  - by exists evs.
Qed.

End SendsOnly.

Lemma sends_only_api_call (P : Request → Prop) method path error params body
    json timeout :
  P (build_request self method path params body json timeout) →
  sends_only P (api_call env self method path error params body json timeout).
Proof.
  intros HP tr. rewrite api_call_run. simpl.
  eexists. split; [done|].
  intros req Hreq. apply list_elem_of_singleton in Hreq. by subst.
Qed.

Lemma sends_only_resp_json (P : Request → Prop) resp :
  sends_only P (resp_json env resp).
Proof.
  unfold resp_json. destruct (json_loads env (content resp));
    [apply sends_only_ret | apply sends_only_raise].
Qed.

Lemma sends_only_json_item (P : Request → Prop) j key :
  sends_only P (json_item j key).
Proof.
  unfold json_item. destruct j; try apply sends_only_raise.
  destruct (list_find _ fields) as [[i [k v]]|];
    [apply sends_only_ret | apply sends_only_raise].
Qed.







(** The request of an [api_call] is in the trace of an operation that
    starts with it, also under a handler. *)
Ltac api_call_traces :=
  repeat match goal with
         | H : api_call _ _ _ _ _ _ _ _ _ ?tr = (_, ?l) |- _ =>
             let Ht := fresh "Ht" in
             pose proof (f_equal snd H) as Ht;
             rewrite api_call_run in Ht; simpl in Ht;
             clear H; subst l
         end.



End Params.




(** ** What every operation does with the transport *)

Section Operations.

Variable env : Env.
Variable dict_to_json : JsonVal → string.
Variable json_dumps : JsonVal → string.
Variable self : HTTPRunDB.

Ltac unfold_operations :=
  unfold connect, store_log, get_log, store_run, update_run, read_run,
    del_run, list_runs, list_runs_params, del_runs, store_artifact,
    read_artifact, del_artifact, list_artifacts, del_artifacts,
    store_function, get_function, list_functions, remote_builder,
    get_builder_status.

(** Steps through an operation, [tac] proving the property of the
    request at its [api_call]. *)
Ltac sends_with tac :=
  repeat first
    [ apply sends_only_api_call; tac
    | apply sends_only_resp_json
    | apply sends_only_json_item
    | apply sends_only_ret
    | apply sends_only_raise
    | apply sends_only_log
    | apply sends_only_try_except; [|intros ?]
    | apply sends_only_bind; [|intros ?]
    | case_match ].

Ltac not_in_list H :=
  repeat (apply elem_of_cons in H as [H|H]; [discriminate H|]);
  by apply elem_of_nil in H.

Lemma authenticated_build method path params body json timeout :
  authenticated self (build_request self method path params body json timeout).
Proof.
  unfold authenticated, build_request. simpl.
  destruct (Py.truthy (user self)), (Py.truthy (token self));
    split_and!; intros; try done; auto.
Qed.

(** X1: every request of every operation carries the credentials of the
    client and nothing else: basic auth when a user is configured (the
    token is then ignored), the bearer header when only a token is, no
    credentials when neither is; auth and headers never come together. *)
Theorem operations_authenticated (c : Call) :
  sends_only (authenticated self) (perform env dict_to_json json_dumps self c).
Proof.
  destruct c; simpl; unfold_operations;
    sends_with ltac:(apply authenticated_build).
Qed.

Lemma api_call_trace method path error params body json timeout tr :
  (api_call env self method path error params body json timeout tr).2
  = tr ++ [EvRequest (build_request self method path params body json timeout)].
Proof. by rewrite api_call_run. Qed.

(** Replaces the trace an [api_call] left by the one it started from
    and the request. *)
Ltac api_call_traces :=
  repeat match goal with
         | H : api_call _ _ _ _ _ _ _ _ _ ?tr = (_, ?l) |- _ =>
             let Ht := fresh "Ht" in
             pose proof (f_equal snd H) as Ht;
             rewrite api_call_trace in Ht; simpl in Ht;
             clear H; subst l
         end.

(** X2: a call of an operation sends exactly one request, except
    [store_log] without a body or with an empty one, which sends none;
    no operation sleeps or prints. *)
Theorem operation_request_count (c : Call) (tr : list Event) :
  ∃ evs,
    adds (perform env dict_to_json json_dumps self c) tr evs
    ∧ List.length (requests_of evs) = request_count c
    ∧ sleeps_of evs = []
    ∧ prints_of evs = [].
Proof.
  unfold adds.
  destruct c; simpl; unfold_operations; unfold bind, try_except, resp_json,
    json_item; simpl;
    repeat case_match; simplify_eq; simpl; api_call_traces;
    unfold raise, ret, emit in *; simplify_eq; simpl;
    rewrite <- ?app_assoc;
    try (eexists; split; [reflexivity|done]);
    try (exists []; by rewrite app_nil_r).
Qed.

Ltac body_discipline_tac :=
  unfold body_discipline, bodyless; simpl; split_and!;
  [ try done;
    let H := fresh "H" in intros H; exfalso; not_in_list H
  | first [by left | by right]
  | set_solver ].

(** X3: whatever the operation, a GET or DELETE request carries neither
    [data] nor [json], no request carries both, and the method is one of
    GET, POST, PATCH and DELETE. *)
Theorem operations_body_discipline (c : Call) :
  sends_only body_discipline (perform env dict_to_json json_dumps self c).
Proof.
  destruct c; simpl; unfold_operations; sends_with body_discipline_tac.
Qed.

(** X4: every request of an operation goes to a URL under the API root
    of the client, [base_url/api/], with the timeout 20, the health
    check of [connect] using 3. *)
Theorem operations_addressed (c : Call) :
  sends_only (addressed self (timeout_of c))
    (perform env dict_to_json json_dumps self c).
Proof.
  destruct c; simpl; unfold_operations;
    sends_with ltac:(split; [eexists; reflexivity | reflexivity]).
Qed.

Ltac sends_param_tac :=
  unfold sends_param, bind, resp_json, json_item; simpl;
  repeat case_match; simplify_eq; simpl; api_call_traces;
  unfold raise, ret in *; simplify_eq; simpl;
  (eexists _, _; split_and!;
   [ unfold requests_of; rewrite !omap_app; simpl; rewrite ?app_nil_r;
     reflexivity
   | reflexivity
   | by simplify_map_eq ]).

(** X5: the list and delete-many operations ([list_runs], [del_runs],
    [list_artifacts], [del_artifacts], [list_functions]) send one
    request whose [project] parameter is the project of the caller, or
    the default project when the caller gives an empty one; it is
    never empty. *)
Theorem operations_resolve_project project tr :
  let sent := PStr (Py.or_else project default_project) in
  (∀ name uid labels state sort last iter,
     sends_param "project" sent
       (list_runs env self name uid project labels state sort last iter) tr)
  ∧ (∀ name labels state days_ago,
       sends_param "project" sent
         (del_runs env self name project labels state days_ago) tr)
  ∧ (∀ name tag labels,
       sends_param "project" sent
         (list_artifacts env self name project tag labels) tr)
  ∧ (∀ name tag labels days_ago,
       sends_param "project" sent
         (del_artifacts env self name project tag labels days_ago) tr)
  ∧ (∀ name tag labels,
       sends_param "project" sent
         (list_functions env self name project tag labels) tr)
  ∧ Py.or_else "" default_project = default_project
  ∧ Py.truthy (Py.or_else project default_project) = true.
Proof.
  intros sent. subst sent. split_and!; intros.
  - unfold list_runs, list_runs_params. sends_param_tac.
  - unfold del_runs. sends_param_tac.
  - unfold list_artifacts. sends_param_tac.
  - unfold del_artifacts. sends_param_tac.
  - unfold list_functions. sends_param_tac.
  - reflexivity.
  - by apply or_else_truthy.
Qed.

(** X15: [list_runs] sends one request whose parameters are exactly
    name, uid, project, label, state, sort and iter: its [last]
    argument is not sent. *)
Theorem list_runs_parameters name uid project labels state sort last iter tr :
  ∃ req ps,
    requests_of
      (list_runs env self name uid project labels state sort last iter tr).2
    = requests_of tr ++ [req]
    ∧ req_method req = "GET"
    ∧ req_url req = base_url self +:+ "/api/runs"
    ∧ req_params req = Some ps
    ∧ dom ps
      = ({[ "name"; "uid"; "project"; "label"; "state"; "sort"; "iter" ]}
           : gset string)
    ∧ ps !! "last" = None.
Proof.
  unfold list_runs, list_runs_params, bind, resp_json, json_item; simpl;
    repeat case_match; simplify_eq; simpl; api_call_traces;
    unfold raise, ret in *; simplify_eq; simpl;
    (eexists _, _; split_and!;
     [ unfold requests_of; rewrite !omap_app; simpl; rewrite ?app_nil_r;
       reflexivity
     | reflexivity
     | reflexivity
     | reflexivity
     | rewrite !dom_insert_L, dom_singleton_L; set_solver
     | done ]).
Qed.

End Operations.


(** ** The polling loop *)

Section Polling.

Variable env : Env.
Variable self : HTTPRunDB.
Variables uid project : string.

Lemma len_nonneg (s : string) : 0 ≤ Py.len s.
Proof. unfold Py.len. lia. Qed.

Lemma print_log_run text end_ tr :
  print_log text end_ tr
  = if Py.truthy text then
      match Utf8.decode text with
      | Some t => (Ok tt, tr ++ [EvPrint t end_])
      | None => (Raise UnicodeDecodeError, tr)
      end
    else (Ok tt, tr).
Proof.
  unfold print_log. destruct (Py.truthy text); [|done].
  by destruct (Utf8.decode text).
Qed.

(** What the loop adds to the trace, and what it can return. *)
Lemma watch_loop_inv fuel :
  ∀ state text offset tr,
    ∃ evs,
      adds (watch_loop env self fuel uid project state text offset) tr evs
      ∧ List.length (sleeps_of evs) = List.length (requests_of evs)
      ∧ Forall (λ s, s = 2) (sleeps_of evs)
      ∧ Forall (λ req, ∃ o : Z, req = get_log_request self uid project o 0
                            ∧ offset ≤ o) (requests_of evs)
      ∧ ∀ st, (watch_loop env self fuel uid project state text offset tr).1
              = Ok st → non_terminal st = false.
Proof.
  unfold adds.
  induction fuel as [|fuel IH]; intros state text offset tr; simpl;
    destruct (non_terminal state) eqn:Hnt;
    try (exists []; rewrite app_nil_r; split_and!; try done;
         by intros st [= <-]).
  unfold bind, emit. rewrite get_log_run. simpl.
  set (req := get_log_request self uid project (offset + Py.len text) 0).
  pose proof (len_nonneg text) as Hlen.
  assert (∃ o : Z, req = get_log_request self uid project o 0 ∧ offset ≤ o)
    as Hreq by (exists (offset + Py.len text); split; [done|lia]).
  destruct (server env (tr ++ [EvSleep 2]) req) as [resp|k cause];
    [|exists [EvSleep 2; EvRequest req]; rewrite <- app_assoc;
      split_and!; try done; repeat constructor; done].
  destruct (raise_for_status resp) as [[k cause]|];
    [exists [EvSleep 2; EvRequest req]; rewrite <- app_assoc;
     split_and!; try done; repeat constructor; done|].
  destruct (headers_truthy resp);
    [|exists [EvSleep 2; EvRequest req]; rewrite <- app_assoc;
      split_and!; try done; repeat constructor; done].
  rewrite print_log_run.
  destruct (Py.truthy (content resp)).
  - destruct (Utf8.decode (content resp)) as [t|];
      [|exists [EvSleep 2; EvRequest req]; rewrite <- app_assoc;
        split_and!; try done; repeat constructor; done].
    destruct (IH (headers_get resp "function_status" "") (content resp)
                (offset + Py.len text)
                (((tr ++ [EvSleep 2]) ++ [EvRequest req]) ++ [EvPrint t ""]))
      as (evs & Hevs & Hl & Hs & Hr & Hst).
    exists ([EvSleep 2; EvRequest req; EvPrint t ""] ++ evs).
    rewrite Hevs. split_and!.
    + by rewrite <- !app_assoc.
    + simpl. by rewrite Hl.
    + simpl. by constructor.
    + simpl. constructor; [done|].
      eapply Forall_impl; [exact Hr|]. intros r (o & -> & Ho).
      exists o. split; [done|lia].
    + exact Hst.
  - destruct (IH (headers_get resp "function_status" "") (content resp)
                (offset + Py.len text)
                ((tr ++ [EvSleep 2]) ++ [EvRequest req]))
      as (evs & Hevs & Hl & Hs & Hr & Hst).
    exists ([EvSleep 2; EvRequest req] ++ evs).
    rewrite Hevs. split_and!.
    + by rewrite <- !app_assoc.
    + simpl. by rewrite Hl.
    + simpl. by constructor.
    + simpl. constructor; [done|].
      eapply Forall_impl; [exact Hr|]. intros r (o & -> & Ho).
      exists o. split; [done|lia].
    + exact Hst.
Qed.

(** X6: with [watch=True], a status that [watch_log] returns is never
    pending or running: the loop ends only on another status. *)
Theorem watch_log_returns_terminal fuel offset tr st tr' :
  watch_log env self fuel uid project true offset tr = (Ok st, tr') →
  non_terminal st = false.
Proof.
  unfold watch_log, bind. rewrite get_log_run. simpl.
  destruct (server env tr _) as [resp|k cause]; [|by inversion 1].
  destruct (raise_for_status resp) as [[k cause]|]; [by inversion 1|].
  destruct (headers_truthy resp); [|by inversion 1].
  rewrite print_log_run.
  destruct (Py.truthy (content resp));
    [destruct (Utf8.decode (content resp)); [|by inversion 1]|];
    intros H;
    match type of H with
    | watch_loop _ _ ?f _ _ ?s ?t ?o ?tr0 = _ =>
        destruct (watch_loop_inv f s t o tr0) as (_ & _ & _ & _ & _ & Hst)
    end;
    apply Hst; by rewrite H.
Qed.

(** X7: whatever the service answers, [watch_log] only sends [get_log]
    requests for its run, all of size 0 and at offsets that never fall
    below the starting one, and it sleeps 2 before every request but the
    first. *)
Theorem watch_log_polling fuel watch offset tr :
  ∃ evs,
    adds (watch_log env self fuel uid project watch offset) tr evs
    ∧ List.length (requests_of evs) = S (List.length (sleeps_of evs))
    ∧ Forall (λ s, s = 2) (sleeps_of evs)
    ∧ Forall (λ req, ∃ o : Z, req = get_log_request self uid project o 0
                          ∧ offset ≤ o) (requests_of evs).
Proof.
  unfold adds, watch_log, bind. rewrite get_log_run. simpl.
  set (req := get_log_request self uid project offset 0).
  assert (∃ o : Z, req = get_log_request self uid project o 0 ∧ offset ≤ o)
    as Hreq by (exists offset; split; [done|lia]).
  destruct (server env tr req) as [resp|k cause];
    [|exists [EvRequest req]; split_and!; try done; repeat constructor; done].
  destruct (raise_for_status resp) as [[k cause]|];
    [exists [EvRequest req]; split_and!; try done; repeat constructor; done|].
  destruct (headers_truthy resp);
    [|exists [EvRequest req]; split_and!; try done; repeat constructor; done].
  rewrite print_log_run.
  destruct (Py.truthy (content resp)).
  - destruct (Utf8.decode (content resp)) as [t|];
      [|exists [EvRequest req]; split_and!; try done; repeat constructor; done].
    destruct watch.
    + destruct (watch_loop_inv fuel (headers_get resp "function_status" "")
                  (content resp) offset
                  ((tr ++ [EvRequest req]) ++ [EvPrint t newline]))
        as (evs & Hevs & Hl & Hs & Hr & _).
      unfold adds in Hevs.
      exists ([EvRequest req; EvPrint t newline] ++ evs).
      rewrite Hevs. split_and!.
      * by rewrite <- !app_assoc.
      * simpl. by rewrite Hl.
      * done.
      * simpl. by constructor.
    + exists [EvRequest req; EvPrint t newline].
      rewrite <- app_assoc. split_and!; try done. repeat constructor; done.
  - destruct watch.
    + destruct (watch_loop_inv fuel (headers_get resp "function_status" "")
                  (content resp) offset (tr ++ [EvRequest req]))
        as (evs & Hevs & Hl & Hs & Hr & _).
      unfold adds in Hevs.
      exists ([EvRequest req] ++ evs).
      rewrite Hevs. split_and!.
      * by rewrite <- !app_assoc.
      * simpl. by rewrite Hl.
      * done.
      * simpl. by constructor.
    + exists [EvRequest req]. split_and!; try done. repeat constructor; done.
Qed.

Section Forever.

(** A service that gives every request the same accepted answer, with a
    pending or running status and a printable body. *)
Variable r : Response.
Hypothesis always : ∀ tr req, server env tr req = Responds r.
Hypothesis accepted : raise_for_status r = None.
Hypothesis with_headers : headers r ≠ ∅.
Hypothesis running : non_terminal (headers_get r "function_status" "") = true.
Hypothesis printable : is_Some (Utf8.decode (content r)).

Lemma get_log_forever offset tr :
  get_log env self uid project offset 0 tr
  = (Ok (headers_get r "function_status" "", content r),
     tr ++ [EvRequest (get_log_request self uid project offset 0)]).
Proof.
  rewrite get_log_run. simpl. rewrite always, accepted.
  by rewrite (proj2 (headers_truthy_spec r) with_headers).
Qed.

Lemma print_log_forever end_ tr :
  (print_log (content r) end_ tr).1 = Ok tt
  ∧ requests_of (print_log (content r) end_ tr).2 = requests_of tr
  ∧ sleeps_of (print_log (content r) end_ tr).2 = sleeps_of tr.
Proof.
  rewrite print_log_run. destruct printable as [t ->].
  destruct (Py.truthy (content r)); simpl; [|done].
  unfold requests_of, sleeps_of. rewrite !omap_app. simpl.
  by rewrite !app_nil_r.
Qed.

Lemma watch_loop_step fuel offset tr :
  watch_loop env self (S fuel) uid project
    (headers_get r "function_status" "") (content r) offset tr
  = watch_loop env self fuel uid project
      (headers_get r "function_status" "") (content r)
      (offset + Py.len (content r))
      (print_log (content r) ""
         ((tr ++ [EvSleep 2])
          ++ [EvRequest (get_log_request self uid project
                           (offset + Py.len (content r)) 0)])).2.
Proof.
  simpl. rewrite running. unfold bind, emit. rewrite get_log_forever.
  pose proof (print_log_forever ""
                ((tr ++ [EvSleep 2])
                 ++ [EvRequest (get_log_request self uid project
                                  (offset + Py.len (content r)) 0)]))
    as (Hp & _).
  destruct (print_log (content r) "" _) as [res tr1]. simpl in Hp.
  by subst res.
Qed.

Lemma watch_loop_forever fuel :
  ∀ offset tr,
    let out :=
      watch_loop env self fuel uid project
        (headers_get r "function_status" "") (content r) offset tr in
    out.1 = Diverge
    ∧ requests_of out.2
      = requests_of tr
        ++ ((λ k : nat, get_log_request self uid project
                          (offset + Z.of_nat (S k) * Py.len (content r)) 0)
              <$> seq 0 fuel)
    ∧ sleeps_of out.2 = sleeps_of tr ++ replicate fuel 2.
Proof.
  induction fuel as [|fuel IH]; intros offset tr.
  - simpl. rewrite running. simpl. by rewrite !app_nil_r.
  - intros out. subst out. rewrite watch_loop_step.
    pose proof (print_log_forever ""
                  ((tr ++ [EvSleep 2])
                   ++ [EvRequest (get_log_request self uid project
                                    (offset + Py.len (content r)) 0)]))
      as (_ & Hp2 & Hp3).
    destruct (IH (offset + Py.len (content r))
                (print_log (content r) ""
                   ((tr ++ [EvSleep 2])
                    ++ [EvRequest (get_log_request self uid project
                                     (offset + Py.len (content r)) 0)])).2)
      as (IH1 & IH2 & IH3).
    split_and!.
    + exact IH1.
    + rewrite IH2, Hp2. unfold requests_of at 1. rewrite !omap_app. simpl.
      rewrite app_nil_r, <- app_assoc. simpl. f_equal. f_equal.
      * do 2 f_equal. lia.
      * rewrite <- fmap_S_seq, <- list_fmap_compose.
        apply list_fmap_ext. intros _ k _. simpl. do 2 f_equal. lia.
    + rewrite IH3, Hp3. unfold sleeps_of at 1. rewrite !omap_app. simpl.
      by rewrite app_nil_r, <- app_assoc.
Qed.

(** X8: the loop has no bound of its own. Against a service that always
    gives the same accepted answer with a pending or running status,
    [watch_log] with [watch=True] is still polling when any amount of
    fuel is spent: with fuel [n] it has sent [n+1] requests, the k-th at
    the starting offset plus k times the length of the body, and slept
    [n] times. *)
Theorem watch_log_never_ends fuel offset :
  let out := watch_log env self fuel uid project true offset [] in
  out.1 = Diverge
  ∧ requests_of out.2
    = (λ k : nat, get_log_request self uid project
                    (offset + Z.of_nat k * Py.len (content r)) 0)
        <$> seq 0 (S fuel)
  ∧ sleeps_of out.2 = replicate fuel 2.
Proof.
  intros out.
  assert (out
          = watch_loop env self fuel uid project
              (headers_get r "function_status" "") (content r) offset
              (print_log (content r) newline
                 ([] ++ [EvRequest (get_log_request self uid project offset 0)])).2)
    as ->.
  { subst out. unfold watch_log, bind. rewrite get_log_forever.
    pose proof (print_log_forever newline
                  ([] ++ [EvRequest (get_log_request self uid project offset 0)]))
      as (Hp & _).
    destruct (print_log (content r) newline _) as [res tr1]. simpl in Hp.
    by subst res. }
  pose proof (print_log_forever newline
                ([] ++ [EvRequest (get_log_request self uid project offset 0)]))
    as (_ & Hp2 & Hp3).
  destruct (watch_loop_forever fuel offset
              (print_log (content r) newline
                 ([] ++ [EvRequest (get_log_request self uid project offset 0)])).2)
    as (H1 & H2 & H3).
  split_and!.
  - exact H1.
  - rewrite H2, Hp2. simpl. f_equal; [do 2 f_equal; lia|].
    rewrite <- fmap_S_seq, <- list_fmap_compose. done.
  - by rewrite H3, Hp3.
Qed.

End Forever.

End Polling.

Lemma watch_log_returns_terminal_witness :
  non_terminal "completed" = false.
Proof.
  exact (watch_log_returns_terminal watch_scenario_env demo_client "u1" ""
           2 0 [] "completed"
           (watch_log watch_scenario_env demo_client 2 "u1" "" true 0 []).2
           eq_refl).
Defined.

Lemma watch_log_never_ends_witness :
  (watch_log (const_env (Responds (log_response "running" "AB"))) demo_client
     3 "u1" "" true 0 []).1 = Diverge
  ∧ offset_of <$> requests_of
      (watch_log (const_env (Responds (log_response "running" "AB")))
         demo_client 3 "u1" "" true 0 []).2
    = [Some (PInt 0); Some (PInt 2); Some (PInt 4); Some (PInt 6)].
Proof.
  assert (headers (log_response "running" "AB") ≠ ∅) as Hh
    by (apply headers_truthy_spec; reflexivity).
  assert (is_Some (Utf8.decode (content (log_response "running" "AB"))))
    as Hd by (eexists; reflexivity).
  pose proof (watch_log_never_ends
                (const_env (Responds (log_response "running" "AB")))
                demo_client "u1" "" (log_response "running" "AB")
                (λ _ _, eq_refl) eq_refl Hh eq_refl Hd 3 0) as (H1 & H2 & _).
  split; [exact H1|]. rewrite H2. reflexivity.
Defined.

(** ** Failures and results of the operations *)

Section Results.

Variable env : Env.
Variable self : HTTPRunDB.

(** X9: when the [api_call] of [remote_builder] or [get_builder_status]
    raises its [RunDBError], what the caller sees depends on the class
    hierarchy: if [RunDBError] derives from [OSError] the error is logged
    and replaced by an [OSError] "error: cannot submit build, ..." (or
    "error: cannot get build status, ..."); otherwise the handler does
    not apply, and the [RunDBError] passes through unchanged with
    nothing logged. *)
Theorem build_failures runtime with_mlrun name project tag offset tr msg tr' :
  (api_call env self "POST" "build/function" None None None
     (Some (JObj [("function", runtime); ("with_mlrun", JBool with_mlrun)]))
     20 tr = (Raise (RunDBError msg), tr') →
   remote_builder env self runtime with_mlrun tr
   = if rundb_error_is_oserror env
     then (Raise (OSError ("error: cannot submit build, " +:+ msg)),
           tr' ++ [EvLogError ("error submitting build task: " +:+ msg)])
     else (Raise (RunDBError msg), tr'))
  ∧ (api_call env self "GET" "build/status" None
       (Some {[ "name" := PStr name; "project" := PStr project;
                "tag" := PStr tag;
                "offset" := PStr (Py.str_of_int offset) ]})
       None None 20 tr = (Raise (RunDBError msg), tr') →
     get_builder_status env self name project tag offset tr
     = if rundb_error_is_oserror env
       then (Raise (OSError ("error: cannot get build status, " +:+ msg)),
             tr' ++ [EvLogError ("error getting build status: " +:+ msg)])
       else (Raise (RunDBError msg), tr')).
Proof.
  split; intros Hcall.
  - unfold remote_builder, bind, try_except. rewrite Hcall.
    unfold is_oserror. by destruct (rundb_error_is_oserror env).
  - unfold get_builder_status, bind, try_except. rewrite Hcall.
    unfold is_oserror. by destruct (rundb_error_is_oserror env).
Qed.

(** X10: [read_run] after an accepted answer: a body that is not JSON
    gives the JSON decoding error, a JSON value that is not an object a
    type error, an object without the key "data" the key error for
    "data", and an object that starts with "data" its value; nothing is
    added to the trace after the request. *)
Theorem read_run_result uid project iter tr resp tr' :
  api_call env self "GET" (_path_of "run" project uid)
    (Some ("get run " +:+ project +:+ "/" +:+ uid))
    (Some {[ "iter" := PInt iter ]}) None None 20 tr = (Ok resp, tr') →
  (json_loads env (content resp) = None →
   read_run env self uid project iter tr = (Raise JSONDecodeError, tr'))
  ∧ (∀ j, json_loads env (content resp) = Some j →
          (∀ fields, j ≠ JObj fields) →
          read_run env self uid project iter tr = (Raise TypeError, tr'))
  ∧ (∀ fields, json_loads env (content resp) = Some (JObj fields) →
               (∀ v, ("data", v) ∉ fields) →
               read_run env self uid project iter tr
               = (Raise (KeyError "data"), tr'))
  ∧ (∀ v rest, json_loads env (content resp)
               = Some (JObj (("data", v) :: rest)) →
               read_run env self uid project iter tr = (Ok (VJson v), tr')).
Proof.
  intros Hcall. unfold read_run, bind, resp_json. rewrite Hcall.
  split_and!.
  - by intros ->.
  - intros j -> Hj. destruct j; try done. by destruct (Hj fields).
  - intros fields -> Hno. simpl.
    destruct (list_find _ fields) as [[i [k v]]|] eqn:Hf; [|done].
    apply list_find_Some in Hf as (Hi & Hk & _). simpl in Hk. subst k.
    destruct (Hno v). by eapply list_elem_of_lookup_2.
  - by intros v rest ->.
Qed.

(** In an object with distinct keys, [d[key]] is the value the key
    has, wherever the field stands. *)
Lemma json_item_found fields key v tr :
  NoDup (json_keys fields) →
  (key, v) ∈ fields →
  json_item (JObj fields) key tr = (Ok v, tr).
Proof.
  intros Hnd Hin. unfold json_item.
  destruct (list_find _ fields) as [[i [k v']]|] eqn:Hf.
  - apply list_find_Some in Hf as (Hi & Hk & _). simpl in Hk. subst k.
    apply list_elem_of_lookup in Hin as [j Hj].
    assert (i = j) as ->.
    { eapply NoDup_lookup; [exact Hnd| |]; unfold json_keys;
        rewrite list_lookup_fmap; [by rewrite Hi | by rewrite Hj]. }
    rewrite Hi in Hj. by inversion Hj.
  - apply list_find_None in Hf.
    rewrite Forall_forall in Hf. by destruct (Hf _ Hin).
Qed.

(** X11: for an accepted answer that is a JSON object with an
    "artifacts" field, wherever the field stands among the others,
    [list_artifacts] returns the value of the field with the tag
    recorded on it exactly as the caller gave it: an empty tag, or a
    list that is empty, changes nothing. *)
Theorem list_artifacts_tag name project tag labels tr resp tr' fields values :
  api_call env self "GET" "artifacts" (Some "list artifacts")
    (Some {[ "name" := name;
             "project" := PStr (Py.or_else project default_project);
             "tag" := tag;
             "label" := PList (labels_or_empty labels) ]})
    None None 20 tr = (Ok resp, tr') →
  json_loads env (content resp) = Some (JObj fields) →
  NoDup (json_keys fields) →
  ("artifacts", values) ∈ fields →
  list_artifacts env self name project tag labels tr
  = (Ok (VArtifactList values tag), tr').
Proof.
  intros Hcall Hj Hnd Hin. unfold list_artifacts, bind, resp_json.
  rewrite Hcall, Hj. lazy beta iota delta [ret].
  by rewrite (json_item_found _ _ _ _ Hnd Hin).
Qed.

Lemma or_else_idemp a b : Py.or_else (Py.or_else a b) b = Py.or_else a b.
Proof. unfold Py.or_else. destruct a; [|done]. simpl. by destruct b. Qed.

(** X12: [read_artifact] sends one GET without parameters to
    artifact/project/tag/key, with an empty project replaced by the
    default project and an empty tag by "latest", and returns the body
    of an accepted answer as it is. *)
Theorem read_artifact_request key tag project tr :
  let req :=
    build_request self "GET"
      ("artifact/" +:+ Py.or_else project default_project +:+ "/"
         +:+ Py.or_else tag "latest" +:+ "/" +:+ key)
      None None None 20 in
  (read_artifact env self key tag project tr).2 = tr ++ [EvRequest req]
  ∧ read_artifact env self key "" "" tr
    = read_artifact env self key "latest" default_project tr
  ∧ ∀ resp, server env tr req = Responds resp →
            raise_for_status resp = None →
            (read_artifact env self key tag project tr).1
            = Ok (VBytes (content resp)).
Proof.
  intros req.
  assert (_path_of "artifact" (Py.or_else project default_project)
            (Py.or_else tag "latest") +:+ "/" +:+ key
          = "artifact/" +:+ Py.or_else project default_project +:+ "/"
              +:+ Py.or_else tag "latest" +:+ "/" +:+ key) as Hpath.
  { rewrite path_of_form, or_else_idemp.
    rewrite <- !string_app_assoc. reflexivity. }
  unfold read_artifact, bind. rewrite api_call_run. simpl.
  rewrite Hpath. fold req. split_and!.
  - destruct (server env tr req) as [resp|k cause]; [|done].
    by destruct (raise_for_status resp) as [[k cause]|].
  - reflexivity.
  - intros resp -> Hr. by rewrite Hr.
Qed.

End Results.

Lemma build_failures_witness :
  remote_builder (fixed_env (Fails Timeout "timed out") None true) demo_client
    (JObj []) true []
  = (Raise (OSError ("error: cannot submit build, "
                       +:+ "POST http://db:8080/api/build/function, error: timed out")),
     [EvRequest (build_request demo_client "POST" "build/function" None None
                   (Some (JObj [("function", JObj []);
                                ("with_mlrun", JBool true)])) 20);
      EvLogError ("error submitting build task: "
                    +:+ "POST http://db:8080/api/build/function, error: timed out")])
  ∧ get_builder_status (fixed_env (Fails Timeout "timed out") None false)
      demo_client "f" "" "" (-1) []
    = (Raise (RunDBError "GET http://db:8080/api/build/status, error: timed out"),
       [EvRequest (build_request demo_client "GET" "build/status"
                     (Some {[ "name" := PStr "f"; "project" := PStr "";
                              "tag" := PStr "";
                              "offset" := PStr (Py.str_of_int (-1)) ]})
                     None None 20)]).
Proof.
  split.
  - exact (proj1 (build_failures
                    (fixed_env (Fails Timeout "timed out") None true)
                    demo_client (JObj []) true "f" "" "" (-1) [] _ _) eq_refl).
  - exact (proj2 (build_failures
                    (fixed_env (Fails Timeout "timed out") None false)
                    demo_client (JObj []) true "f" "" "" (-1) [] _ _) eq_refl).
Defined.

Lemma read_run_result_witness :
  (read_run (fixed_env (Responds (response_with 200 ∅ "{}"))
               (Some (JObj [])) false) demo_client "u1" "" 0 []).1
  = Raise (KeyError "data")
  ∧ (read_run (fixed_env (Responds (response_with 200 ∅ "{}"))
                 (Some (JObj [("data", JStr "run")])) false)
       demo_client "u1" "" 0 []).1
    = Ok (VJson (JStr "run"))
  ∧ (read_run (fixed_env (Responds (response_with 200 ∅ "{}"))
                 (Some (JArr [])) false) demo_client "u1" "" 0 []).1
    = Raise TypeError
  ∧ (read_run (fixed_env (Responds (response_with 200 ∅ "{}")) None false)
       demo_client "u1" "" 0 []).1
    = Raise JSONDecodeError.
Proof.
  split_and!.
  - pose proof (read_run_result
                  (fixed_env (Responds (response_with 200 ∅ "{}"))
                     (Some (JObj [])) false) demo_client "u1" "" 0 [] _ _
                  eq_refl) as (_ & _ & H & _).
    rewrite (H [] eq_refl); [done|]. intros v Hv. by apply elem_of_nil in Hv.
  - pose proof (read_run_result
                  (fixed_env (Responds (response_with 200 ∅ "{}"))
                     (Some (JObj [("data", JStr "run")])) false)
                  demo_client "u1" "" 0 [] _ _ eq_refl) as (_ & _ & _ & H).
    by rewrite (H (JStr "run") [] eq_refl).
  - pose proof (read_run_result
                  (fixed_env (Responds (response_with 200 ∅ "{}"))
                     (Some (JArr [])) false) demo_client "u1" "" 0 [] _ _
                  eq_refl) as (_ & H & _).
    rewrite (H (JArr []) eq_refl); [done|]. by intros fields.
  - pose proof (read_run_result
                  (fixed_env (Responds (response_with 200 ∅ "{}")) None false)
                  demo_client "u1" "" 0 [] _ _ eq_refl) as (H & _).
    by rewrite (H eq_refl).
Defined.

Lemma list_artifacts_tag_witness :
  (list_artifacts (fixed_env (Responds (response_with 200 ∅ "{}"))
                     (Some (JObj [("count", JNum 0); ("artifacts", JArr [])]))
                     false)
     demo_client "" "" "" None []).1
  = Ok (VArtifactList (JArr []) "").
Proof.
  assert (NoDup (json_keys [("count", JNum 0); ("artifacts", JArr [])]))
    as Hnd
    by (unfold json_keys; simpl; apply NoDup_cons; split;
        [by intros ?%list_elem_of_singleton | apply NoDup_singleton]).
  assert (("artifacts", JArr [])
            ∈ [("count", JNum 0); ("artifacts", JArr [])]) as Hin
    by (apply list_elem_of_further, list_elem_of_here).
  by rewrite (list_artifacts_tag
                (fixed_env (Responds (response_with 200 ∅ "{}"))
                   (Some (JObj [("count", JNum 0); ("artifacts", JArr [])]))
                   false)
                demo_client "" "" "" None [] _ _ _ (JArr []) eq_refl eq_refl
                Hnd Hin).
Defined.

Lemma read_artifact_request_witness :
  (read_artifact (const_env (Responds (response_with 200 ∅ "model")))
     demo_client "model.pkl" "" "" []).1
  = Ok (VBytes "model").
Proof.
  exact (proj2 (proj2 (read_artifact_request
                         (const_env (Responds (response_with 200 ∅ "model")))
                         demo_client "model.pkl" "" "" []))
           (response_with 200 ∅ "model") eq_refl eq_refl).
Defined.

(** ** Addressing *)

Section Addressing.

Lemma append_slash_inj (a a' b b' : string) :
  slash_free a = true → slash_free a' = true →
  a +:+ String "/" b = a' +:+ String "/" b' → a = a' ∧ b = b'.
Proof.
  revert a'. induction a as [|c a IH]; intros [|c' a'] Ha Ha' Heq.
  - by inversion Heq.
  - exfalso. change (String "/" b = String c' (a' +:+ String "/" b')) in Heq.
    inversion Heq; subst c'. simpl in Ha'. discriminate Ha'.
  - exfalso. change (String c (a +:+ String "/" b) = String "/" b') in Heq.
    inversion Heq; subst c. simpl in Ha. discriminate Ha.
  - change (String c (a +:+ String "/" b) = String c' (a' +:+ String "/" b'))
      in Heq.
    inversion Heq; subst c'.
    unfold slash_free in Ha, Ha'. simpl in Ha, Ha'.
    apply andb_true_iff in Ha as [_ Ha]. apply andb_true_iff in Ha' as [_ Ha'].
    destruct (IH a' Ha Ha') as [-> ->]; done.
Qed.

(** X13: two resources get the same path only if they have the same
    kind, the same project after defaulting and the same identifier,
    provided kinds and projects hold no slash; identifiers may hold
    any. *)
Theorem path_of_injective kind kind' project project' uid uid' :
  slash_free kind = true → slash_free kind' = true →
  slash_free (Py.or_else project default_project) = true →
  slash_free (Py.or_else project' default_project) = true →
  _path_of kind project uid = _path_of kind' project' uid' →
  kind = kind'
  ∧ Py.or_else project default_project = Py.or_else project' default_project
  ∧ uid = uid'.
Proof.
  intros Hk Hk' Hp Hp' Heq. rewrite !path_of_form in Heq.
  change (kind +:+ String "/" (Py.or_else project default_project
                                 +:+ String "/" uid)
          = kind' +:+ String "/" (Py.or_else project' default_project
                                    +:+ String "/" uid')) in Heq.
  apply append_slash_inj in Heq as [-> Heq]; [|done|done].
  apply append_slash_inj in Heq as [-> ->]; done.
Qed.

(** A project with a slash in it can collide with another resource. *)
Lemma path_of_collision :
  _path_of "run" "a/b" "c" = _path_of "run" "a" "b/c".
Proof. reflexivity. Qed.

End Addressing.

Lemma path_of_injective_witness :
  "run" = "run" ∧ Py.or_else "" default_project = Py.or_else "default" default_project
  ∧ "u1" = "u1".
Proof.
  exact (path_of_injective "run" "run" "" "default" "u1" "u1"
           eq_refl eq_refl eq_refl eq_refl eq_refl).
Defined.

(** ** Log text *)

Section LogText.

Lemma decode_bytes_ascii (bs : list N) :
  forallb (λ b, (b <? 128)%N) bs = true → Utf8.decode_bytes bs = Some bs.
Proof.
  induction bs as [|b bs IH]; [done|]. simpl.
  intros [Hb Hbs]%andb_true_iff. rewrite Hb, (IH Hbs). reflexivity.
Qed.

(** X14: log text made of ASCII bytes always decodes, to its own bytes;
    printing it never raises, and adds one print event unless the text
    is empty. *)
Theorem print_log_ascii text end_ tr :
  is_ascii text = true →
  Utf8.decode text = Some (Utf8.bytes_of text)
  ∧ print_log text end_ tr
    = (Ok tt, if Py.truthy text
              then tr ++ [EvPrint (Utf8.bytes_of text) end_] else tr).
Proof.
  intros Ha.
  assert (Utf8.decode text = Some (Utf8.bytes_of text)) as Hd
    by (by apply decode_bytes_ascii).
  split; [exact Hd|]. rewrite print_log_run, Hd.
  by destruct (Py.truthy text).
Qed.

End LogText.

Lemma print_log_ascii_witness :
  print_log "done" newline []
  = (Ok tt, [EvPrint (Utf8.bytes_of "done") newline]).
Proof. exact (proj2 (print_log_ascii "done" newline [] eq_refl)). Defined.

(** ** More on the operations *)

Section MoreOperations.

Variable dict_to_json : JsonVal → string.
Variable json_dumps : JsonVal → string.
Variable self : HTTPRunDB.


End MoreOperations.


Section FirstFetch.

Variable env : Env.
Variable self : HTTPRunDB.

(** X17: when the first fetch is accepted with headers and reports a
    status other than pending and running, [watch_log] sends that one
    request and never sleeps, watching or not; it returns the status if
    the body decodes (an empty body does) and raises the decoding error
    if it does not. An answer with headers but no [function_status]
    among them counts as the empty status, which ends the watch in the
    same way. *)
Theorem watch_log_terminal_first_fetch fuel uid project watch (offset : Z) tr
    resp :
  let req := get_log_request self uid project offset 0 in
  let out := watch_log env self fuel uid project watch offset tr in
  let ends_with (status : string) :=
    requests_of out.2 = requests_of tr ++ [req]
    ∧ sleeps_of out.2 = sleeps_of tr
    ∧ (is_Some (Utf8.decode (content resp)) → out.1 = Ok status)
    ∧ (Utf8.decode (content resp) = None → out.1 = Raise UnicodeDecodeError) in
  server env tr req = Responds resp →
  raise_for_status resp = None →
  headers resp ≠ ∅ →
  (non_terminal (headers_get resp "function_status" "") = false →
   ends_with (headers_get resp "function_status" ""))
  ∧ (headers resp !! "function_status" = None → ends_with "").
Proof.
  intros req out ends_with Hs Hr Hh.
  assert (non_terminal (headers_get resp "function_status" "") = false →
          ends_with (headers_get resp "function_status" "")) as Hmain.
  { intros Hnt. subst ends_with out. unfold watch_log, bind.
    rewrite get_log_run. simpl. fold req. rewrite Hs, Hr.
    rewrite (proj2 (headers_truthy_spec resp) Hh).
    rewrite print_log_run.
    assert (∀ tr0, watch_loop env self fuel uid project
                     (headers_get resp "function_status" "") (content resp)
                     offset tr0
                   = (Ok (headers_get resp "function_status" ""), tr0))
      as Hloop.
    { intros tr0. destruct fuel; simpl; by rewrite Hnt. }
    destruct (Py.truthy (content resp)) eqn:Ht.
    - destruct (Utf8.decode (content resp)) as [t|] eqn:Hd.
      + destruct watch; rewrite ?Hloop; trace_simpl; split_and!; done.
      + trace_simpl. split_and!; done.
    - assert (content resp = "") as Hc by (by destruct (content resp)).
      destruct watch; rewrite ?Hloop; trace_simpl; split_and!; try done;
        rewrite Hc; by inversion 1. }
  split; [exact Hmain|].
  intros Hnone.
  assert (headers_get resp "function_status" "" = "") as Hget.
  { unfold headers_get. change (Py.lower "function_status")
      with "function_status". by rewrite Hnone. }
  rewrite Hget in Hmain. by apply Hmain.
Qed.

End FirstFetch.

Lemma watch_log_terminal_first_fetch_witness :
  (watch_log (const_env (Responds (response_with 200
                                     {[ "content-type" := "text/plain" ]}
                                     "AB")))
     demo_client 0 "u1" "" true 0 []).1 = Ok ""
  ∧ (watch_log (const_env (Responds (log_response "done"
                                       (String (ascii_of_nat 255) ""))))
       demo_client 0 "u1" "" true 0 []).1 = Raise UnicodeDecodeError.
Proof.
  split.
  - assert (headers (response_with 200 {[ "content-type" := "text/plain" ]}
                       "AB") ≠ ∅) as Hh
      by (apply headers_truthy_spec; reflexivity).
    assert (is_Some (Utf8.decode
                       (content (response_with 200
                                   {[ "content-type" := "text/plain" ]} "AB"))))
      as Hd by (eexists; reflexivity).
    pose proof (watch_log_terminal_first_fetch
                  (const_env (Responds (response_with 200
                                          {[ "content-type" := "text/plain" ]}
                                          "AB")))
                  demo_client 0 "u1" "" true 0 [] _ eq_refl eq_refl Hh)
      as [_ Hnone].
    destruct (Hnone eq_refl) as (_ & _ & Hok & _). exact (Hok Hd).
  - assert (headers (log_response "done" (String (ascii_of_nat 255) "")) ≠ ∅)
      as Hh by (apply headers_truthy_spec; reflexivity).
    pose proof (watch_log_terminal_first_fetch
                  (const_env (Responds (log_response "done"
                                          (String (ascii_of_nat 255) ""))))
                  demo_client 0 "u1" "" true 0 [] _ eq_refl eq_refl Hh)
      as [Hterm _].
    destruct (Hterm eq_refl) as (_ & _ & _ & Hbad). exact (Hbad eq_refl).
Defined.
